(** * SAST-Blame: the analyzer of [src/analyzer.py]

    A shallow embedding of [SastAnalyzer]: the Python values the analyzer
    inspects, the exceptions it raises and catches, the external
    collaborators (the semgrep process, [json.loads], pydantic validation,
    the GitLab and GitHub clients) as oracles over an abstract world, and the
    five methods of the class as computations in a state-and-exception monad
    that also logs every collaborator call. *)

From Stdlib Require Import Ascii.
From stdpp Require Import gmap strings list fin_maps pretty.

Local Open Scope Z_scope.
Set Warnings "-register-all,-clear-no-such-hyp".

(** ** Exceptions *)

(** The exceptions that can travel through the analyzer.  Every constructor
    but [Interrupt] is an instance of Python's [Exception]; [Interrupt]
    stands for the classes that derive from [BaseException] only
    ([KeyboardInterrupt], [SystemExit]), which [except Exception] lets
    through. *)
Inductive exn : Type :=
  | KeyError (key : string)
  | IndexError (msg : string)
  | TypeError (msg : string)
  | AttributeError (msg : string)
  | RuntimeError (msg : string)
  | LibraryError (cls msg : string)
  | Interrupt (cls : string).

(** [isinstance(e, Exception)] *)
Definition is_Exception (e : exn) : bool :=
  match e with
  | Interrupt _ => false
  | _ => true
  end.

(** [str(e)]: the message; a [KeyError] shows the repr of its key. *)
Definition str_exn (e : exn) : string :=
  match e with
  | KeyError k => "'" +:+ k +:+ "'"
  | IndexError m | TypeError m | AttributeError m | RuntimeError m => m
  | LibraryError _ m => m
  | Interrupt _ => EmptyString
  end.

(** The outcome of evaluating an expression: a value, or a raised exception. *)
Inductive result (A : Type) : Type :=
  | Ok (a : A)
  | Raise (e : exn).
Arguments Ok {A} a.
Arguments Raise {A} e.

Global Instance result_ret : MRet result := λ A a, Ok a.
Global Instance result_bind : MBind result := λ A B f r,
  match r with
  | Ok a => f a
  | Raise e => Raise e
  end.
Global Instance result_fmap : FMap result := λ A B f r,
  match r with
  | Ok a => Ok (f a)
  | Raise e => Raise e
  end.

(** [r] raises nothing that [except Exception] would let through. *)
Definition only_Exception {A} (r : result A) : Prop :=
  ∀ e, r = Raise e → is_Exception e = true.

(** A list comprehension [[f(x) for x in xs]]: elements are converted in
    order and the first exception ends the comprehension. *)
Fixpoint comprehension {A B} (f : A → result B) (xs : list A) : result (list B) :=
  match xs with
  | [] => Ok []
  | x :: rest =>
      y ← f x;
      ys ← comprehension f rest;
      Ok (y :: ys)
  end.

(** ** Python values *)

(** The dynamically typed values the analyzer receives from its
    collaborators: what [json.loads] produces (floats apart), plus plain
    attribute-carrying objects and datetimes for the GitHub client.  A dict
    is an association list in insertion order with distinct [str] keys. *)
Inductive pyval : Type :=
  | PNone
  | PBool (b : bool)
  | PInt (n : Z)
  | PStr (s : string)
  | PList (items : list pyval)
  | PDict (entries : list (string * pyval))
  | PObj (attrs : list (string * pyval))
  | PDateTime (iso : string).

Definition type_name (v : pyval) : string :=
  match v with
  | PNone => "NoneType"
  | PBool _ => "bool"
  | PInt _ => "int"
  | PStr _ => "str"
  | PList _ => "list"
  | PDict _ => "dict"
  | PObj _ => "object"
  | PDateTime _ => "datetime.datetime"
  end.

(** First binding of [k] in an association list. *)
Fixpoint assoc {V} (k : string) (kvs : list (string * V)) : option V :=
  match kvs with
  | [] => None
  | (k', v) :: rest => if String.eqb k k' then Some v else assoc k rest
  end.

Definition not_subscriptable (v : pyval) : exn :=
  TypeError ("'" +:+ type_name v +:+ "' object is not subscriptable").

Definition no_attribute (v : pyval) (name : string) : exn :=
  AttributeError ("'" +:+ type_name v +:+ "' object has no attribute '" +:+ name +:+ "'").

(** [v[k]] for a [str] key [k]. *)
Definition py_getitem (v : pyval) (k : string) : result pyval :=
  match v with
  | PDict d =>
      match assoc k d with
      | Some x => Ok x
      | None => Raise (KeyError k)
      end
  | PList _ => Raise (TypeError "list indices must be integers or slices, not str")
  | PStr _ => Raise (TypeError "string indices must be integers, not 'str'")
  | _ => Raise (not_subscriptable v)
  end.

(** The one-character strings a [str] yields when iterated or indexed. *)
Fixpoint chars (s : string) : list pyval :=
  match s with
  | EmptyString => []
  | String c rest => PStr (String c EmptyString) :: chars rest
  end.

(** [v[0]] *)
Definition py_first (v : pyval) : result pyval :=
  match v with
  | PList l =>
      match head l with
      | Some x => Ok x
      | None => Raise (IndexError "list index out of range")
      end
  | PStr s =>
      match head (chars s) with
      | Some x => Ok x
      | None => Raise (IndexError "string index out of range")
      end
  | PDict _ => Raise (KeyError "0")
  | _ => Raise (not_subscriptable v)
  end.

(** [v[-1]] *)
Definition py_last (v : pyval) : result pyval :=
  match v with
  | PList l =>
      match last l with
      | Some x => Ok x
      | None => Raise (IndexError "list index out of range")
      end
  | PStr s =>
      match last (chars s) with
      | Some x => Ok x
      | None => Raise (IndexError "string index out of range")
      end
  | PDict _ => Raise (KeyError "-1")
  | _ => Raise (not_subscriptable v)
  end.

(** [v.name] for the attribute names the analyzer reads ([lines], [commit],
    [author], [name], [sha], [committed_date]): only a plain object can
    carry them. *)
Definition py_getattr (v : pyval) (name : string) : result pyval :=
  match v with
  | PObj attrs =>
      match assoc name attrs with
      | Some x => Ok x
      | None => Raise (no_attribute v name)
      end
  | _ => Raise (no_attribute v name)
  end.

(** [v.isoformat()] *)
Definition py_isoformat (v : pyval) : result pyval :=
  match v with
  | PDateTime iso => Ok (PStr iso)
  | _ =>
      m ← py_getattr v "isoformat";
      Raise (TypeError ("'" +:+ type_name m +:+ "' object is not callable"))
  end.

(** [v.get(k, default)] *)
Definition py_get (v : pyval) (k : string) (dflt : pyval) : result pyval :=
  match v with
  | PDict d => Ok (default dflt (assoc k d))
  | _ =>
      m ← py_getattr v "get";
      Raise (TypeError ("'" +:+ type_name m +:+ "' object is not callable"))
  end.

(** [iter(v)], fully consumed: a list yields its items, a dict its keys, a
    [str] its characters; nothing else is iterable. *)
Definition py_iter (v : pyval) : result (list pyval) :=
  match v with
  | PList l => Ok l
  | PDict d => Ok ((λ kv, PStr kv.1) <$> d)
  | PStr s => Ok (chars s)
  | _ => Raise (TypeError ("'" +:+ type_name v +:+ "' object is not iterable"))
  end.

Definition not_ordered (l r : string) : exn :=
  TypeError ("'<=' not supported between instances of '" +:+ l +:+ "' and '" +:+ r +:+ "'").

(** [v <= n] for an [int] [n] ([bool] is a subclass of [int]). *)
Definition py_le_int (v : pyval) (n : Z) : result bool :=
  match v with
  | PInt a => Ok (a <=? n)
  | PBool b => Ok (Z.b2z b <=? n)
  | _ => Raise (not_ordered (type_name v) "int")
  end.

(** [n <= v] for an [int] [n]. *)
Definition py_int_le (n : Z) (v : pyval) : result bool :=
  match v with
  | PInt a => Ok (n <=? a)
  | PBool b => Ok (n <=? Z.b2z b)
  | _ => Raise (not_ordered "int" (type_name v))
  end.

(** [needle in hay] on [str]: [needle] occurs in [hay] as a contiguous
    substring, compared character by character. *)
Fixpoint contains (needle hay : string) : bool :=
  String.prefix needle hay ||
  match hay with
  | EmptyString => false
  | String _ rest => contains needle rest
  end.

(** [s] has no colon. *)
Fixpoint colon_free (s : string) : bool :=
  match s with
  | EmptyString => true
  | String c rest => negb (Ascii.eqb c ":"%char) && colon_free rest
  end.

(** [str.lower] on ASCII text, the folding under which a match is
    case-insensitive. *)
Definition ascii_lower (c : ascii) : ascii :=
  let n := nat_of_ascii c in
  if ((65 <=? n) && (n <=? 90))%nat then ascii_of_nat (n + 32) else c.

Fixpoint lower (s : string) : string :=
  match s with
  | EmptyString => EmptyString
  | String c rest => String (ascii_lower c) (lower rest)
  end.

(** ** The models of the module *)

(** [class SastResult(BaseModel)] *)
Record SastResult : Type := {
  file : string;
  line : Z;
  message : string;
  severity : string;
  rule_id : string;
}.

(** [class BlameInfo(BaseModel)] *)
Record BlameInfo : Type := {
  author : string;
  commit : string;
  date : string;
}.

(** A value of the dict [analyze_repository] returns:
    [{"sast": result, "blame": blame}]. *)
Record EnrichmentEntry : Type := {
  sast : SastResult;
  blame : option BlameInfo;
}.

(** What [subprocess.run(..., capture_output=True, text=True)] returns. *)
Record CompletedProcess : Type := {
  returncode : Z;
  stdout : string;
  stderr : string;
}.

(** The calls the analyzer makes to its collaborators, as logged. *)
Inductive call : Type :=
  | CallSubprocess (cmd : list string)
  | CallGitlabProject (repo_url : string)
  | CallGitlabBlob (file_path : string)
  | CallGitlabBlame
  | CallGithubRepo (repo_url : string)
  | CallGithubContents (file_path : string)
  | CallGithubBlame.

Definition is_github_call (c : call) : bool :=
  match c with
  | CallGithubRepo _ | CallGithubContents _ | CallGithubBlame => true
  | _ => false
  end.

Definition is_gitlab_call (c : call) : bool :=
  match c with
  | CallGitlabProject _ | CallGitlabBlob _ | CallGitlabBlame => true
  | _ => false
  end.

(** The first call of a lookup: fetching the project or the repository. *)
Definition is_repository_call (c : call) : bool :=
  match c with
  | CallGitlabProject _ | CallGithubRepo _ => true
  | _ => false
  end.

(** The calls of a GitLab lookup that runs to its end, in order. *)
Definition gitlab_calls (repo_url file_path : string) : list call :=
  [CallGitlabProject repo_url; CallGitlabBlob file_path; CallGitlabBlame].

(** The calls of a GitHub lookup that runs to its end, in order. *)
Definition github_calls (repo_url file_path : string) : list call :=
  [CallGithubRepo repo_url; CallGithubContents file_path; CallGithubBlame].

(** The truth value of an [Optional[str]] credential: [None] and the empty
    string are false. *)
Definition token_truthy (t : option string) : bool :=
  match t with
  | None | Some EmptyString => false
  | Some _ => true
  end.

(** [f"{file}:{line}"] *)
Definition result_key (r : SastResult) : string :=
  file r +:+ ":" +:+ pretty (line r).

(** ** The analyzer *)

Section Analyzer.

(** Everything outside the process: the file system semgrep scans and the
    two hosting services.  A collaborator call reads and may change it, so
    two calls with the same arguments need not answer alike. *)
Context {World : Type}.

(** The state a method runs in: the world and the log of collaborator
    calls made so far. *)
Record state : Type := {
  world : World;
  calls : list call;
}.

(** A method body: it runs from a state, returns or raises, and leaves a
    state. *)
Definition M (A : Type) : Type := state → result A * state.

Global Instance M_ret : MRet M := λ A a st, (Ok a, st).
Global Instance M_bind : MBind M := λ A B f m st,
  match m st with
  | (Ok a, st') => f a st'
  | (Raise e, st') => (Raise e, st')
  end.

(** A pure expression evaluated inside a method. *)
Definition lift {A} (r : result A) : M A := λ st, (r, st).

(** A call to a collaborator: logged, then answered by the world. *)
Definition invoke {A} (c : call) (oracle : World → result A * World) : M A :=
  λ st,
    let (r, w) := oracle (world st) in
    (r, {| world := w; calls := calls st ++ [c] |}).

(** [try: body / except Exception as e: handler(e)] *)
Definition try_except {A} (body : M A) (handler : exn → M A) : M A :=
  λ st,
    match body st with
    | (Raise e, st') =>
        if is_Exception e then handler e st' else (Raise e, st')
    | (Ok a, st') => (Ok a, st')
    end.

(** *** Collaborators *)

(** The object [project.repository_blob(file_path)] returns. *)
Record GitlabBlob : Type := {
  gitlab_blame : World → result pyval * World;
}.

(** The object [client.projects.get(repo_url)] returns. *)
Record GitlabProject : Type := {
  repository_blob : string → World → result GitlabBlob * World;
}.

Record GitlabClient : Type := {
  projects_get : string → World → result GitlabProject * World;
}.

(** The object [repo.get_contents(file_path)] returns. *)
Record GithubContents : Type := {
  github_blame : World → result pyval * World;
}.

(** The object [client.get_repo(repo_url)] returns. *)
Record GithubRepo : Type := {
  get_contents : string → World → result GithubContents * World;
}.

Record GithubClient : Type := {
  get_repo : string → World → result GithubRepo * World;
}.

(** The functions the module imports. *)
Class Collaborators : Type := {
  (** [subprocess.run(cmd, capture_output=True, text=True)] *)
  subprocess_run : list string → World → result CompletedProcess * World;
  (** [json.loads] *)
  json_loads : string → result pyval;
  (** pydantic's validation of a [str] and of an [int] field.  Which
      non-[str] and non-[int] inputs are coerced depends on the pydantic
      version; the analyzer relies only on well-typed inputs passing
      unchanged. *)
  validate_str : pyval → result string;
  validate_int : pyval → result Z;
  (** The client constructors [gitlab.Gitlab(private_token=t)] and
      [Github(t)]. *)
  Gitlab : string → GitlabClient;
  Github : string → GithubClient;
}.

Context {env : Collaborators}.

(** [SastResult(file=f, line=l, message=m, severity=s, rule_id=r)].
    pydantic reports every invalid field in one [ValidationError]; here the
    error of the first invalid field stands for it. *)
Definition SastResult_new (f l m s r : pyval) : result SastResult :=
  f' ← validate_str f;
  l' ← validate_int l;
  m' ← validate_str m;
  s' ← validate_str s;
  r' ← validate_str r;
  Ok {| file := f'; line := l'; message := m'; severity := s'; rule_id := r' |}.

(** [BlameInfo(author=a, commit=c, date=d)] *)
Definition BlameInfo_new (a c d : pyval) : result BlameInfo :=
  a' ← validate_str a;
  c' ← validate_str c;
  d' ← validate_str d;
  Ok {| author := a'; commit := c'; date := d' |}.

(** *** [class SastAnalyzer] *)

Record SastAnalyzer : Type := {
  gitlab_token : option string;
  github_token : option string;
  gitlab_client : option GitlabClient;
  github_client : option GithubClient;
}.

(** [SastAnalyzer.__init__] *)
Definition __init__ (gitlab_token github_token : option string) : SastAnalyzer :=
  {| gitlab_token := gitlab_token;
     github_token := github_token;
     gitlab_client :=
       if token_truthy gitlab_token then Gitlab <$> gitlab_token else None;
     github_client :=
       if token_truthy github_token then Github <$> github_token else None |}.

(** The element of the list comprehension of [run_semgrep]; keyword
    arguments are evaluated left to right, then the model is built. *)
Definition finding_to_result (finding : pyval) : result SastResult :=
  f ← py_getitem finding "path";
  l ← py_getitem finding "start" ≫= λ s, py_getitem s "line";
  m ← py_getitem finding "extra" ≫= λ e, py_getitem e "message";
  s ← py_getitem finding "extra" ≫= λ e, py_getitem e "severity";
  r ← py_getitem finding "check_id";
  SastResult_new f l m s r.

(** What [run_semgrep] makes of the text semgrep printed. *)
Definition parse_findings (out : string) : result (list SastResult) :=
  findings ← json_loads out;
  results ← py_get findings "results" (PList []);
  items ← py_iter results;
  comprehension finding_to_result items.

(** What the [except] clause of [run_semgrep] makes of an outcome of its
    [try] block. *)
Definition analysis_failed {A} (r : result A) : result A :=
  match r with
  | Ok a => Ok a
  | Raise e =>
      if is_Exception e
      then Raise (RuntimeError ("Semgrep analysis failed: " +:+ str_exn e))
      else Raise e
  end.

(** [SastAnalyzer.run_semgrep] *)
Definition run_semgrep (path : string) : M (list SastResult) :=
  try_except
    (let cmd := ["semgrep"; "--json"; path] in
     result ← invoke (CallSubprocess cmd) (subprocess_run cmd);
     lift (parse_findings (stdout result)))
    (λ e, lift (Raise (RuntimeError ("Semgrep analysis failed: " +:+ str_exn e)))).

(** The condition of the loop of [_get_gitlab_blame],
    [entry["lines"]["start"] <= line <= entry["lines"]["end"]]: a chained
    comparison, whose right half is evaluated only when the left half
    holds. *)
Definition gitlab_contains (entry : pyval) (line : Z) : result bool :=
  lo ← py_getitem entry "lines" ≫= λ ls, py_getitem ls "start";
  b ← py_le_int lo line;
  if b : bool then
    hi ← py_getitem entry "lines" ≫= λ ls, py_getitem ls "end";
    py_int_le line hi
  else Ok false.

(** The [BlameInfo] built from a GitLab entry. *)
Definition gitlab_record (entry : pyval) : result BlameInfo :=
  a ← py_getitem entry "commit" ≫= λ c, py_getitem c "author_name";
  c ← py_getitem entry "commit" ≫= λ c, py_getitem c "id";
  d ← py_getitem entry "commit" ≫= λ c, py_getitem c "committed_date";
  BlameInfo_new a c d.

(** The loop of [_get_gitlab_blame]: return at the first entry whose
    condition holds; falling off the end returns [None]. *)
Fixpoint gitlab_scan (blame : list pyval) (line : Z) : result (option BlameInfo) :=
  match blame with
  | [] => Ok None
  | entry :: rest =>
      b ← gitlab_contains entry line;
      if b : bool then Some <$> gitlab_record entry
      else gitlab_scan rest line
  end.

(** [self.gitlab_client.projects]: an attribute of [None] does not exist. *)
Definition the_client {C} (client : option C) (attr : string) : result C :=
  match client with
  | Some c => Ok c
  | None => Raise (no_attribute PNone attr)
  end.

(** [SastAnalyzer._get_gitlab_blame] *)
Definition _get_gitlab_blame (self : SastAnalyzer)
    (repo_url file_path : string) (line : Z) : M (option BlameInfo) :=
  try_except
    (client ← lift (the_client (gitlab_client self) "projects");
     project ← invoke (CallGitlabProject repo_url) (projects_get client repo_url);
     blob ← invoke (CallGitlabBlob file_path) (repository_blob project file_path);
     blame ← invoke CallGitlabBlame (gitlab_blame blob);
     entries ← lift (py_iter blame);
     lift (gitlab_scan entries line))
    (λ _, mret None).

(** The condition of the loop of [_get_github_blame],
    [entry.lines[0] <= line <= entry.lines[-1]]. *)
Definition github_contains (entry : pyval) (line : Z) : result bool :=
  lo ← py_getattr entry "lines" ≫= py_first;
  b ← py_le_int lo line;
  if b : bool then
    hi ← py_getattr entry "lines" ≫= py_last;
    py_int_le line hi
  else Ok false.

(** The [BlameInfo] built from a GitHub entry. *)
Definition github_record (entry : pyval) : result BlameInfo :=
  commit ← py_getattr entry "commit";
  a ← py_getattr commit "author" ≫= λ au, py_getattr au "name";
  c ← py_getattr commit "sha";
  d ← py_getattr commit "committed_date" ≫= py_isoformat;
  BlameInfo_new a c d.

(** The loop of [_get_github_blame]. *)
Fixpoint github_scan (blame : list pyval) (line : Z) : result (option BlameInfo) :=
  match blame with
  | [] => Ok None
  | entry :: rest =>
      b ← github_contains entry line;
      if b : bool then Some <$> github_record entry
      else github_scan rest line
  end.

(** [SastAnalyzer._get_github_blame] *)
Definition _get_github_blame (self : SastAnalyzer)
    (repo_url file_path : string) (line : Z) : M (option BlameInfo) :=
  try_except
    (client ← lift (the_client (github_client self) "get_repo");
     repo ← invoke (CallGithubRepo repo_url) (get_repo client repo_url);
     contents ← invoke (CallGithubContents file_path) (get_contents repo file_path);
     blame ← invoke CallGithubBlame (github_blame contents);
     entries ← lift (py_iter blame);
     lift (github_scan entries line))
    (λ _, mret None).

(** [SastAnalyzer.get_blame_info] *)
Definition get_blame_info (self : SastAnalyzer)
    (repo_url file_path : string) (line : Z) : M (option BlameInfo) :=
  if bool_decide (is_Some (gitlab_client self)) && contains "gitlab" repo_url then
    _get_gitlab_blame self repo_url file_path line
  else if bool_decide (is_Some (github_client self)) && contains "github" repo_url then
    _get_github_blame self repo_url file_path line
  else mret None.

(** The loop of [analyze_repository], from the dict built so far. *)
Fixpoint enrich (self : SastAnalyzer) (repo_url : string)
    (sast_results : list SastResult)
    (enriched_results : gmap string EnrichmentEntry)
    : M (gmap string EnrichmentEntry) :=
  match sast_results with
  | [] => mret enriched_results
  | result :: rest =>
      blame ← get_blame_info self repo_url (file result) (line result);
      enrich self repo_url rest
        (<[result_key result := {| sast := result; blame := blame |}]> enriched_results)
  end.

(** [SastAnalyzer.analyze_repository] *)
Definition analyze_repository (self : SastAnalyzer)
    (repo_url path : string) : M (gmap string EnrichmentEntry) :=
  sast_results ← run_semgrep path;
  enrich self repo_url sast_results ∅.

(** *** Well-behaved collaborators *)

(** An oracle whose failures are all instances of [Exception] and whose
    answers satisfy [P]. *)
Definition answers {A} (P : A → Prop) (oracle : World → result A * World) : Prop :=
  ∀ w,
    match (oracle w).1 with
    | Ok a => P a
    | Raise e => is_Exception e = true
    end.

Definition gitlab_project_sound (p : GitlabProject) : Prop :=
  ∀ file_path,
    answers (λ blob, answers (λ _, True) (gitlab_blame blob))
      (repository_blob p file_path).

Definition gitlab_client_sound (c : GitlabClient) : Prop :=
  ∀ repo_url, answers gitlab_project_sound (projects_get c repo_url).

Definition github_repo_sound (r : GithubRepo) : Prop :=
  ∀ file_path,
    answers (λ contents, answers (λ _, True) (github_blame contents))
      (get_contents r file_path).

Definition github_client_sound (c : GithubClient) : Prop :=
  ∀ repo_url, answers github_repo_sound (get_repo c repo_url).

(** The clients of an analyzer fail with instances of [Exception] only,
    as network, authentication and not-found errors of the two client
    libraries are. *)
Definition clients_sound (self : SastAnalyzer) : Prop :=
  (∀ c, gitlab_client self = Some c → gitlab_client_sound c) ∧
  (∀ c, github_client self = Some c → github_client_sound c).

(** pydantic rejects a value with a [ValidationError], an [Exception]. *)
Definition validation_sound : Prop :=
  ∀ v, only_Exception (validate_str v).

(** The ways a GitLab lookup fails, read off the body of
    [_get_gitlab_blame] from world [w]. *)
Inductive gitlab_lookup_fails (self : SastAnalyzer)
    (repo_url file_path : string) (line : Z) (w : World) : Prop :=
  | gitlab_no_client :
      gitlab_client self = None →
      gitlab_lookup_fails self repo_url file_path line w
  | gitlab_project_error c e w1 :
      gitlab_client self = Some c →
      projects_get c repo_url w = (Raise e, w1) →
      gitlab_lookup_fails self repo_url file_path line w
  | gitlab_file_error c p w1 e w2 :
      gitlab_client self = Some c →
      projects_get c repo_url w = (Ok p, w1) →
      repository_blob p file_path w1 = (Raise e, w2) →
      gitlab_lookup_fails self repo_url file_path line w
  | gitlab_blame_error c p w1 b w2 e w3 :
      gitlab_client self = Some c →
      projects_get c repo_url w = (Ok p, w1) →
      repository_blob p file_path w1 = (Ok b, w2) →
      gitlab_blame b w2 = (Raise e, w3) →
      gitlab_lookup_fails self repo_url file_path line w
  | gitlab_scan_error c p w1 b w2 v w3 e :
      gitlab_client self = Some c →
      projects_get c repo_url w = (Ok p, w1) →
      repository_blob p file_path w1 = (Ok b, w2) →
      gitlab_blame b w2 = (Ok v, w3) →
      py_iter v ≫= (λ entries, gitlab_scan entries line) = Raise e →
      gitlab_lookup_fails self repo_url file_path line w
  | gitlab_no_range c p w1 b w2 v w3 entries :
      gitlab_client self = Some c →
      projects_get c repo_url w = (Ok p, w1) →
      repository_blob p file_path w1 = (Ok b, w2) →
      gitlab_blame b w2 = (Ok v, w3) →
      py_iter v = Ok entries →
      Forall (λ entry, gitlab_contains entry line = Ok false) entries →
      gitlab_lookup_fails self repo_url file_path line w.

(** The ways a GitHub lookup fails, read off the body of
    [_get_github_blame] from world [w]. *)
Inductive github_lookup_fails (self : SastAnalyzer)
    (repo_url file_path : string) (line : Z) (w : World) : Prop :=
  | github_no_client :
      github_client self = None →
      github_lookup_fails self repo_url file_path line w
  | github_repo_error c e w1 :
      github_client self = Some c →
      get_repo c repo_url w = (Raise e, w1) →
      github_lookup_fails self repo_url file_path line w
  | github_file_error c r w1 e w2 :
      github_client self = Some c →
      get_repo c repo_url w = (Ok r, w1) →
      get_contents r file_path w1 = (Raise e, w2) →
      github_lookup_fails self repo_url file_path line w
  | github_blame_error c r w1 b w2 e w3 :
      github_client self = Some c →
      get_repo c repo_url w = (Ok r, w1) →
      get_contents r file_path w1 = (Ok b, w2) →
      github_blame b w2 = (Raise e, w3) →
      github_lookup_fails self repo_url file_path line w
  | github_scan_error c r w1 b w2 v w3 e :
      github_client self = Some c →
      get_repo c repo_url w = (Ok r, w1) →
      get_contents r file_path w1 = (Ok b, w2) →
      github_blame b w2 = (Ok v, w3) →
      py_iter v ≫= (λ entries, github_scan entries line) = Raise e →
      github_lookup_fails self repo_url file_path line w
  | github_no_range c r w1 b w2 v w3 entries :
      github_client self = Some c →
      get_repo c repo_url w = (Ok r, w1) →
      get_contents r file_path w1 = (Ok b, w2) →
      github_blame b w2 = (Ok v, w3) →
      py_iter v = Ok entries →
      Forall (λ entry, github_contains entry line = Ok false) entries →
      github_lookup_fails self repo_url file_path line w.

(** A computation whose failures are all instances of [Exception] and whose
    results satisfy [P]. *)
Definition yields {A} (P : A → Prop) (m : M A) : Prop :=
  ∀ st,
    match (m st).1 with
    | Ok a => P a
    | Raise e => is_Exception e = true
    end.

(** The [(file, line)] pair findings are deduplicated by. *)
Definition location (r : SastResult) : string * Z := (file r, line r).

(** Which lookup [get_blame_info] hands a locator to. *)
Inductive provider : Type := GitLabProvider | GitHubProvider.

Definition selected (self : SastAnalyzer) (repo_url : string) : option provider :=
  if bool_decide (is_Some (gitlab_client self)) && contains "gitlab" repo_url then
    Some GitLabProvider
  else if bool_decide (is_Some (github_client self)) && contains "github" repo_url then
    Some GitHubProvider
  else None.

(** pydantic passes a [str] given for a [str] field and an [int] given for
    an [int] field unchanged. *)
Definition validation_exact : Prop :=
  (∀ s, validate_str (PStr s) = Ok s) ∧ (∀ n, validate_int (PInt n) = Ok n).

(** An element of semgrep's [results] that carries the five fields of [r],
    each of its type, where [run_semgrep] reads them. *)
Definition reads_as (finding : pyval) (r : SastResult) : Prop :=
  py_getitem finding "path" = Ok (PStr (file r)) ∧
  py_getitem finding "start" ≫= (λ s, py_getitem s "line") = Ok (PInt (line r)) ∧
  py_getitem finding "extra" ≫= (λ e, py_getitem e "message") = Ok (PStr (message r)) ∧
  py_getitem finding "extra" ≫= (λ e, py_getitem e "severity") = Ok (PStr (severity r)) ∧
  py_getitem finding "check_id" = Ok (PStr (rule_id r)).

(** The calls a lookup of [get_blame_info] makes when it runs to its end. *)
Definition lookup_calls (self : SastAnalyzer) (repo_url file_path : string) : list call :=
  match selected self repo_url with
  | Some GitLabProvider => gitlab_calls repo_url file_path
  | Some GitHubProvider => github_calls repo_url file_path
  | None => []
  end.

End Analyzer.

(** * A concrete world

    One instance of the collaborators, used to run the analyzer on concrete
    inputs: the world is a clock that every collaborator call advances. *)

Module Demo.

(** A [str] between double quotes, as JSON writes it (no escapes needed for
    the strings below). *)
Definition quoted (s : string) : string :=
  String "034"%char (s +:+ String "034"%char EmptyString).

(** [json.dumps] on the values JSON has. *)
Fixpoint dumps (v : pyval) : string :=
  match v with
  | PNone => "null"
  | PBool true => "true"
  | PBool false => "false"
  | PInt n => pretty n
  | PStr s => quoted s
  | PList l => "[" +:+ String.concat ", " (dumps <$> l) +:+ "]"
  | PDict d =>
      "{" +:+
      String.concat ", " ((λ kv, let '(k, x) := kv in quoted k +:+ ": " +:+ dumps x) <$> d)
      +:+ "}"
  | PObj _ | PDateTime _ => EmptyString
  end.

(** One element of semgrep's [results]. *)
Definition finding (path : string) (line : Z) (msg sev rule : string) : pyval :=
  PDict [("check_id", PStr rule); ("path", PStr path);
         ("start", PDict [("line", PInt line); ("col", PInt 1)]);
         ("extra", PDict [("message", PStr msg); ("severity", PStr sev)])].

(** A report with three findings, two of them at [b.py:5]. *)
Definition report : pyval :=
  PDict [("results", PList [finding "src/a.py" 10 "eval of user input" "ERROR" "py.eval";
                            finding "b.py" 5 "weak hash" "WARNING" "py.md5";
                            finding "b.py" 5 "weak hash in token" "ERROR" "py.md5-token"]);
         ("errors", PList [])].

(** What semgrep prints when it stops on a fatal error after one finding. *)
Definition partial_report : pyval :=
  PDict [("results", PList [finding "src/a.py" 10 "eval of user input" "ERROR" "py.eval"]);
         ("errors", PList [PDict [("code", PInt 2); ("level", PStr "error")]])].

(** A JSON object with no [results] key. *)
Definition bare_report : pyval :=
  PDict [("errors", PList [])].

(** A JSON document that is not an object. *)
Definition list_report : pyval :=
  PList [finding "src/a.py" 10 "eval of user input" "ERROR" "py.eval"].

Definition documents : list pyval := [report; partial_report; bare_report; list_report].

(** [json.loads] on the texts of [documents]; every other text used below is
    not JSON. *)
Definition loads (text : string) : result pyval :=
  match List.find (λ v, String.eqb (dumps v) text) documents with
  | Some v => Ok v
  | None => Raise (LibraryError "JSONDecodeError" "Expecting value: line 1 column 1 (char 0)")
  end.

(** semgrep, by the path it is asked to scan. *)
Definition semgrep (cmd : list string) (w : nat) : result CompletedProcess * nat :=
  match cmd with
  | [_; _; "."] => (Ok {| returncode := 0; stdout := dumps report; stderr := EmptyString |}, S w)
  | [_; _; "vendor"] =>
      (Ok {| returncode := 2; stdout := dumps partial_report; stderr := "fatal error" |}, S w)
  | [_; _; "docs"] => (Ok {| returncode := 0; stdout := dumps bare_report; stderr := EmptyString |}, S w)
  | [_; _; "lib"] => (Ok {| returncode := 0; stdout := dumps list_report; stderr := EmptyString |}, S w)
  | _ => (Ok {| returncode := 2; stdout := EmptyString; stderr := "invalid scanning root" |}, S w)
  end.

(** A machine without semgrep: the process cannot be started. *)
Definition no_semgrep (cmd : list string) (w : nat) : result CompletedProcess * nat :=
  (Raise (LibraryError "FileNotFoundError" "[Errno 2] No such file or directory: 'semgrep'"), w).

(** Validation that accepts exactly the well-typed inputs. *)
Definition strict_str (v : pyval) : result string :=
  match v with
  | PStr s => Ok s
  | _ => Raise (LibraryError "ValidationError" "Input should be a valid string")
  end.

Definition strict_int (v : pyval) : result Z :=
  match v with
  | PInt n => Ok n
  | _ => Raise (LibraryError "ValidationError" "Input should be a valid integer")
  end.

(** A GitLab range. *)
Definition gitlab_entry (lo hi : Z) (who id when : string) : pyval :=
  PDict [("lines", PDict [("start", PInt lo); ("end", PInt hi)]);
         ("commit", PDict [("author_name", PStr who); ("id", PStr id);
                           ("committed_date", PStr when)])].

(** A GitHub range. *)
Definition github_entry (lo hi : Z) (who sha when : string) : pyval :=
  PObj [("lines", PList [PInt lo; PInt hi]);
        ("commit", PObj [("author", PObj [("name", PStr who)]); ("sha", PStr sha);
                         ("committed_date", PDateTime when)])].

(** The GitLab server: one project, two files; [b.py] is rewritten when the
    clock reaches 8. *)
Definition gitlab_server : GitlabClient (World := nat) :=
  {| projects_get url w :=
       if contains "g/p" url then
         (Ok {| repository_blob path w1 :=
                  if String.eqb path "src/a.py" then
                    (Ok {| gitlab_blame w2 :=
                             (Ok (PList [gitlab_entry 1 20 "Ann" "abc123" "2024-01-01T00:00:00Z"]),
                              S w2) |}, S w1)
                  else if String.eqb path "b.py" then
                    (Ok {| gitlab_blame w2 :=
                             (Ok (PList [gitlab_entry 1 4 "Ann" "abc123" "2024-01-01T00:00:00Z";
                                         if (w2 <? 8)%nat then
                                           gitlab_entry 5 9 "Bob" "old111" "2024-03-01T00:00:00Z"
                                         else
                                           gitlab_entry 5 9 "Cy" "new222" "2024-06-01T00:00:00Z"]),
                              S w2) |}, S w1)
                  else (Raise (LibraryError "GitlabGetError" "404: 404 File Not Found"), S w1) |},
          S w)
       else (Raise (LibraryError "GitlabGetError" "404: 404 Project Not Found"), S w) |}.

(** The GitHub server: one repository, one file. *)
Definition github_server : GithubClient (World := nat) :=
  {| get_repo url w :=
       if contains "g/p" url then
         (Ok {| get_contents path w1 :=
                  if String.eqb path "src/a.py" then
                    (Ok {| github_blame w2 :=
                             (Ok (PList [github_entry 1 20 "Dee" "def456" "2024-02-02T00:00:00"]),
                              S w2) |}, S w1)
                  else (Raise (LibraryError "UnknownObjectException" "404 Not Found"), S w1) |},
          S w)
       else (Raise (LibraryError "UnknownObjectException" "404 Not Found"), S w) |}.

Definition collaborators (run : list string → nat → result CompletedProcess * nat)
    : Collaborators (World := nat) :=
  {| subprocess_run := run;
     json_loads := loads;
     validate_str := strict_str;
     validate_int := strict_int;
     Gitlab := λ _, gitlab_server;
     Github := λ _, github_server |}.

Definition env : Collaborators (World := nat) := collaborators semgrep.

(** Analyzers with both credentials, one, or none. *)
Definition both : SastAnalyzer := __init__ (env := env) (Some "glpat-1") (Some "ghp-1").
Definition gitlab_only : SastAnalyzer := __init__ (env := env) (Some "glpat-1") None.
Definition github_only : SastAnalyzer := __init__ (env := env) None (Some "ghp-1").
Definition neither : SastAnalyzer := __init__ (env := env) None None.

(** The state before anything ran. *)
Definition start : state (World := nat) := {| world := 0%nat; calls := [] |}.

(** The three findings of [report]. *)
Definition a10 : SastResult :=
  {| file := "src/a.py"; line := 10; message := "eval of user input";
     severity := "ERROR"; rule_id := "py.eval" |}.
Definition b5 : SastResult :=
  {| file := "b.py"; line := 5; message := "weak hash";
     severity := "WARNING"; rule_id := "py.md5" |}.
Definition b5' : SastResult :=
  {| file := "b.py"; line := 5; message := "weak hash in token";
     severity := "ERROR"; rule_id := "py.md5-token" |}.

(** A GitLab server that cannot be reached. *)
Definition gitlab_down : GitlabClient (World := nat) :=
  {| projects_get url w :=
       (Raise (LibraryError "ConnectionError" "Max retries exceeded"), S w) |}.

(** An analyzer whose GitLab server is down while GitHub answers. *)
Definition stranded : SastAnalyzer :=
  {| gitlab_token := Some "glpat-1"; github_token := Some "ghp-1";
     gitlab_client := Some gitlab_down; github_client := Some github_server |}.

(** A report whose second element has no [path] and no [start]. *)
Definition gap_report : pyval :=
  PDict [("results", PList [finding "src/a.py" 10 "eval of user input" "ERROR" "py.eval";
                            PDict [("check_id", PStr "py.md5");
                                   ("extra", PDict [("message", PStr "weak hash");
                                                    ("severity", PStr "WARNING")])];
                            finding "b.py" 5 "weak hash in token" "ERROR" "py.md5-token"]);
         ("errors", PList [])].

(** A semgrep that prints [gap_report], and [json.loads] on its text. *)
Definition gap_semgrep (cmd : list string) (w : nat) : result CompletedProcess * nat :=
  (Ok {| returncode := 0; stdout := dumps gap_report; stderr := EmptyString |}, S w).

Definition gap_loads (text : string) : result pyval :=
  if String.eqb text (dumps gap_report) then Ok gap_report else loads text.

Definition gap_env : Collaborators (World := nat) :=
  {| subprocess_run := gap_semgrep;
     json_loads := gap_loads;
     validate_str := strict_str;
     validate_int := strict_int;
     Gitlab := λ _, gitlab_server;
     Github := λ _, github_server |}.

(** A GitHub server whose answer for [src/a.py] has two ranges that contain
    line 5. *)
Definition github_crowded : GithubClient (World := nat) :=
  {| get_repo url w :=
       (Ok {| get_contents path w1 :=
                (Ok {| github_blame w2 :=
                         (Ok (PList [github_entry 1 4 "Ann" "abc123" "2024-01-01T00:00:00";
                                     github_entry 5 9 "Dee" "def456" "2024-02-02T00:00:00";
                                     github_entry 5 30 "Eve" "fff000" "2023-01-01T00:00:00"]),
                          S w2) |}, S w1) |}, S w) |}.

Definition crowded : SastAnalyzer :=
  {| gitlab_token := None; github_token := Some "ghp-1";
     gitlab_client := None; github_client := Some github_crowded |}.





End Demo.

(** * Properties *)

Create HintDb exn.

Section Properties.

Context {World : Type} {env : Collaborators (World := World)}.

Local Abbreviation M := (@M World).
Implicit Types (self : SastAnalyzer (World := World)) (st : state (World := World)).
Implicit Types (repo_url file_path path : string) (line : Z).

(** ** Which exceptions the pure expressions raise *)

Lemma only_Exception_Ok {A} (a : A) : only_Exception (Ok a).
Proof. intros e [=]. Qed.

Lemma only_Exception_Raise {A} (e : exn) :
  is_Exception e = true → only_Exception (@Raise A e).
Proof. intros He e' [= <-]. exact He. Qed.

Lemma only_Exception_bind {A B} (r : result A) (f : A → result B) :
  only_Exception r → (∀ a, r = Ok a → only_Exception (f a)) →
  only_Exception (r ≫= f).
Proof.
  intros Hr Hf. destruct r as [a|e]; simpl.
  - by apply Hf.
  - intros e' [= <-]. by apply Hr.
Qed.

Lemma only_Exception_fmap {A B} (r : result A) (f : A → B) :
  only_Exception r → only_Exception (f <$> r).
Proof.
  intros Hr. destruct r as [a|e]; simpl.
  - apply only_Exception_Ok.
  - intros e' [= <-]. by apply Hr.
Qed.

Ltac exc :=
  repeat first
    [ apply only_Exception_Ok
    | apply only_Exception_Raise; reflexivity
    | apply only_Exception_fmap
    | apply only_Exception_bind; [| intros ? _]
    | match goal with
      | |- only_Exception (match ?x with _ => _ end) => destruct x
      end
    | progress simpl
    | assumption ].

Lemma py_getitem_exn v k : only_Exception (py_getitem v k).
Proof. unfold py_getitem. exc. Qed.

Lemma py_getattr_exn v name : only_Exception (py_getattr v name).
Proof. unfold py_getattr. exc. Qed.

Lemma py_first_exn v : only_Exception (py_first v).
Proof. unfold py_first. exc. Qed.

Lemma py_last_exn v : only_Exception (py_last v).
Proof. unfold py_last. exc. Qed.

Lemma py_isoformat_exn v : only_Exception (py_isoformat v).
Proof. unfold py_isoformat. destruct v; exc; apply py_getattr_exn. Qed.

Lemma py_iter_exn v : only_Exception (py_iter v).
Proof. unfold py_iter. exc. Qed.

Lemma py_le_int_exn v n : only_Exception (py_le_int v n).
Proof. unfold py_le_int. exc. Qed.

Lemma py_int_le_exn n v : only_Exception (py_int_le n v).
Proof. unfold py_int_le. exc. Qed.

#[local] Hint Resolve py_getitem_exn py_getattr_exn py_first_exn py_last_exn
  py_isoformat_exn py_iter_exn py_le_int_exn py_int_le_exn : exn.

Ltac exc_auto := exc; auto with exn.

Lemma BlameInfo_new_exn a c d :
  validation_sound → only_Exception (BlameInfo_new a c d).
Proof. intros Hv. unfold BlameInfo_new. exc; apply Hv. Qed.

Lemma gitlab_contains_exn entry line : only_Exception (gitlab_contains entry line).
Proof. unfold gitlab_contains. exc_auto. Qed.

Lemma gitlab_record_exn entry :
  validation_sound → only_Exception (gitlab_record entry).
Proof. intros Hv. unfold gitlab_record. exc_auto. Qed.

Lemma gitlab_scan_exn blame line :
  validation_sound → only_Exception (gitlab_scan blame line).
Proof.
  intros Hv. induction blame as [|entry rest IH]; simpl.
  - apply only_Exception_Ok.
  - apply only_Exception_bind; [apply gitlab_contains_exn|].
    intros [] _; [|exact IH].
    apply only_Exception_fmap. by apply gitlab_record_exn.
Qed.

Lemma github_contains_exn entry line : only_Exception (github_contains entry line).
Proof. unfold github_contains. exc_auto. Qed.

Lemma github_record_exn entry :
  validation_sound → only_Exception (github_record entry).
Proof. intros Hv. unfold github_record. exc_auto. Qed.

Lemma github_scan_exn blame line :
  validation_sound → only_Exception (github_scan blame line).
Proof.
  intros Hv. induction blame as [|entry rest IH]; simpl.
  - apply only_Exception_Ok.
  - apply only_Exception_bind; [apply github_contains_exn|].
    intros [] _; [|exact IH].
    apply only_Exception_fmap. by apply github_record_exn.
Qed.

(** ** Which exceptions the methods raise *)

Lemma yields_lift {A} (r : result A) :
  only_Exception r → yields (World := World) (λ _, True) (lift r).
Proof. intros Hr st. unfold lift; simpl. destruct r; [done|by apply Hr]. Qed.

Lemma yields_invoke {A} (P : A → Prop) c (oracle : World → result A * World) :
  answers P oracle → yields P (invoke c oracle).
Proof.
  intros Ho st. specialize (Ho (world st)). unfold invoke.
  by destruct (oracle (world st)) as [r w].
Qed.

Lemma yields_bind {A B} (P : A → Prop) (Q : B → Prop) (m : M A) (f : A → M B) :
  yields P m → (∀ a, P a → yields Q (f a)) → yields Q (m ≫= f).
Proof.
  intros Hm Hf st. specialize (Hm st). unfold mbind, M_bind.
  destruct (m st) as [[a|e] st']; simpl in *; [|done].
  by apply Hf.
Qed.

Lemma try_except_returns {A} (body : M A) (a0 : A) st :
  yields (λ _, True) body →
  ∃ a st', try_except body (λ _, mret a0) st = (Ok a, st').
Proof.
  intros Hb. specialize (Hb st). unfold try_except.
  destruct (body st) as [[a|e] st']; simpl in *; [by eauto|].
  rewrite Hb. by eauto.
Qed.

Lemma the_client_exn {C} (client : option C) attr :
  only_Exception (the_client client attr).
Proof. unfold the_client. exc. Qed.

Lemma gitlab_body_yields self repo_url file_path line :
  validation_sound → clients_sound self →
  yields (λ _, True)
    (client ← lift (the_client (gitlab_client self) "projects");
     project ← invoke (CallGitlabProject repo_url) (projects_get client repo_url);
     blob ← invoke (CallGitlabBlob file_path) (repository_blob project file_path);
     blame ← invoke CallGitlabBlame (gitlab_blame blob);
     entries ← lift (py_iter blame);
     lift (gitlab_scan entries line)).
Proof.
  intros Hv [Hgl _].
  apply yields_bind with (P := λ c, gitlab_client self = Some c).
  { intros st. unfold lift; simpl. by destruct (gitlab_client self). }
  intros c Hc. eapply yields_bind; [apply yields_invoke, (Hgl c Hc)|].
  intros p Hp. eapply yields_bind; [apply yields_invoke, Hp|].
  intros b Hb. eapply yields_bind; [apply yields_invoke, Hb|].
  intros v _. eapply yields_bind; [apply yields_lift, py_iter_exn|].
  intros entries _. by apply yields_lift, gitlab_scan_exn.
Qed.

Lemma github_body_yields self repo_url file_path line :
  validation_sound → clients_sound self →
  yields (λ _, True)
    (client ← lift (the_client (github_client self) "get_repo");
     repo ← invoke (CallGithubRepo repo_url) (get_repo client repo_url);
     contents ← invoke (CallGithubContents file_path) (get_contents repo file_path);
     blame ← invoke CallGithubBlame (github_blame contents);
     entries ← lift (py_iter blame);
     lift (github_scan entries line)).
Proof.
  intros Hv [_ Hgh].
  apply yields_bind with (P := λ c, github_client self = Some c).
  { intros st. unfold lift; simpl. by destruct (github_client self). }
  intros c Hc. eapply yields_bind; [apply yields_invoke, (Hgh c Hc)|].
  intros r Hr. eapply yields_bind; [apply yields_invoke, Hr|].
  intros b Hb. eapply yields_bind; [apply yields_invoke, Hb|].
  intros v _. eapply yields_bind; [apply yields_lift, py_iter_exn|].
  intros entries _. by apply yields_lift, github_scan_exn.
Qed.

Lemma gitlab_blame_returns self repo_url file_path line st :
  validation_sound → clients_sound self →
  ∃ b st', _get_gitlab_blame self repo_url file_path line st = (Ok b, st').
Proof. intros Hv Hc. by apply try_except_returns, gitlab_body_yields. Qed.

Lemma github_blame_returns self repo_url file_path line st :
  validation_sound → clients_sound self →
  ∃ b st', _get_github_blame self repo_url file_path line st = (Ok b, st').
Proof. intros Hv Hc. by apply try_except_returns, github_body_yields. Qed.

Lemma get_blame_info_selected self repo_url file_path line :
  get_blame_info self repo_url file_path line =
  match selected self repo_url with
  | Some GitLabProvider => _get_gitlab_blame self repo_url file_path line
  | Some GitHubProvider => _get_github_blame self repo_url file_path line
  | None => mret None
  end.
Proof.
  unfold get_blame_info, selected.
  by repeat match goal with |- context [if ?b then _ else _] => destruct b end.
Qed.

Lemma get_blame_info_returns self repo_url file_path line st :
  validation_sound → clients_sound self →
  ∃ b st', get_blame_info self repo_url file_path line st = (Ok b, st').
Proof.
  intros Hv Hc. rewrite get_blame_info_selected.
  destruct (selected self repo_url) as [[]|].
  - by apply gitlab_blame_returns.
  - by apply github_blame_returns.
  - by eexists _, _.
Qed.

Lemma enrich_returns self repo_url sast_results enriched st :
  validation_sound → clients_sound self →
  ∃ m st', enrich self repo_url sast_results enriched st = (Ok m, st').
Proof.
  intros Hv Hc. revert enriched st.
  induction sast_results as [|r rest IH]; intros enriched st; simpl.
  - by eexists _, _.
  - destruct (get_blame_info_returns self repo_url (file r) (line r) st Hv Hc)
      as (b & st' & Hb).
    unfold mbind, M_bind. rewrite Hb. apply IH.
Qed.

(** ** Failed lookups *)

Lemma gitlab_scan_no_range entries line :
  Forall (λ entry, gitlab_contains entry line = Ok false) entries →
  gitlab_scan entries line = Ok None.
Proof.
  induction 1 as [|entry rest Hentry _ IH]; simpl; [done|].
  by rewrite Hentry.
Qed.

Lemma github_scan_no_range entries line :
  Forall (λ entry, github_contains entry line = Ok false) entries →
  github_scan entries line = Ok None.
Proof.
  induction 1 as [|entry rest Hentry _ IH]; simpl; [done|].
  by rewrite Hentry.
Qed.

Lemma answers_Ok {A} (P : A → Prop) (oracle : World → result A * World) w a w' :
  answers P oracle → oracle w = (Ok a, w') → P a.
Proof. intros Ho Hw. specialize (Ho w). by rewrite Hw in Ho. Qed.

Lemma answers_Raise {A} (P : A → Prop) (oracle : World → result A * World) w e w' :
  answers P oracle → oracle w = (Raise e, w') → is_Exception e = true.
Proof. intros Ho Hw. specialize (Ho w). by rewrite Hw in Ho. Qed.

Ltac run_body :=
  unfold _get_gitlab_blame, _get_github_blame, try_except, mbind, M_bind,
    lift, invoke, the_client, mret, M_ret;
  repeat match goal with
    | H : ?x = _ |- context [?x] => rewrite H; simpl
    end.

Lemma gitlab_failure_unknown self repo_url file_path line st :
  validation_sound → clients_sound self →
  gitlab_lookup_fails self repo_url file_path line (world st) →
  ∃ st', _get_gitlab_blame self repo_url file_path line st = (Ok None, st').
Proof.
  intros Hv [Hgl _] Hfail.
  destruct Hfail as
    [ Hc | c e w1 Hc H1 | c p w1 e w2 Hc H1 H2 | c p w1 b w2 e w3 Hc H1 H2 H3
    | c p w1 b w2 v w3 e Hc H1 H2 H3 H4 | c p w1 b w2 v w3 entries Hc H1 H2 H3 H4 H5 ].
  - run_body. by eexists.
  - pose proof (answers_Raise _ _ _ _ _ (Hgl c Hc repo_url) H1) as He.
    run_body. by eexists.
  - pose proof (answers_Ok _ _ _ _ _ (Hgl c Hc repo_url) H1) as Hp.
    pose proof (answers_Raise _ _ _ _ _ (Hp file_path) H2) as He.
    run_body. by eexists.
  - pose proof (answers_Ok _ _ _ _ _ (Hgl c Hc repo_url) H1) as Hp.
    pose proof (answers_Ok _ _ _ _ _ (Hp file_path) H2) as Hb.
    pose proof (answers_Raise _ _ _ _ _ Hb H3) as He.
    run_body. by eexists.
  - assert (is_Exception e = true) as He.
    { revert H4. apply only_Exception_bind; [apply py_iter_exn|].
      intros entries _. by apply gitlab_scan_exn. }
    run_body. destruct (py_iter v) as [entries|e']; simpl in *.
    + rewrite H4, He. by eexists.
    + injection H4 as ->. rewrite He. by eexists.
  - run_body. rewrite (gitlab_scan_no_range _ _ H5). by eexists.
Qed.

Lemma github_failure_unknown self repo_url file_path line st :
  validation_sound → clients_sound self →
  github_lookup_fails self repo_url file_path line (world st) →
  ∃ st', _get_github_blame self repo_url file_path line st = (Ok None, st').
Proof.
  intros Hv [_ Hgh] Hfail.
  destruct Hfail as
    [ Hc | c e w1 Hc H1 | c p w1 e w2 Hc H1 H2 | c p w1 b w2 e w3 Hc H1 H2 H3
    | c p w1 b w2 v w3 e Hc H1 H2 H3 H4 | c p w1 b w2 v w3 entries Hc H1 H2 H3 H4 H5 ].
  - run_body. by eexists.
  - pose proof (answers_Raise _ _ _ _ _ (Hgh c Hc repo_url) H1) as He.
    run_body. by eexists.
  - pose proof (answers_Ok _ _ _ _ _ (Hgh c Hc repo_url) H1) as Hp.
    pose proof (answers_Raise _ _ _ _ _ (Hp file_path) H2) as He.
    run_body. by eexists.
  - pose proof (answers_Ok _ _ _ _ _ (Hgh c Hc repo_url) H1) as Hp.
    pose proof (answers_Ok _ _ _ _ _ (Hp file_path) H2) as Hb.
    pose proof (answers_Raise _ _ _ _ _ Hb H3) as He.
    run_body. by eexists.
  - assert (is_Exception e = true) as He.
    { revert H4. apply only_Exception_bind; [apply py_iter_exn|].
      intros entries _. by apply github_scan_exn. }
    run_body. destruct (py_iter v) as [entries|e']; simpl in *.
    + rewrite H4, He. by eexists.
    + injection H4 as ->. rewrite He. by eexists.
  - run_body. rewrite (github_scan_no_range _ _ H5). by eexists.
Qed.

(** C1: every blame lookup returns, and returns [None] when it fails.
    With clients and validation that fail with instances of [Exception]
    (network, authentication and not-found errors are), [_get_gitlab_blame],
    [_get_github_blame] and [get_blame_info] never raise, from any state;
    each way a lookup can fail (no client, an error from any of the three
    client calls, a malformed answer, no range containing the line) makes it
    return [None]; and once [run_semgrep] has returned, nothing raised by a
    lookup escapes [analyze_repository]. *)
Theorem C1_failed_lookup_is_unknown self repo_url file_path line st :
  validation_sound → clients_sound self →
  (∃ b st', _get_gitlab_blame self repo_url file_path line st = (Ok b, st')) ∧
  (∃ b st', _get_github_blame self repo_url file_path line st = (Ok b, st')) ∧
  (∃ b st', get_blame_info self repo_url file_path line st = (Ok b, st')) ∧
  (gitlab_lookup_fails self repo_url file_path line (world st) →
     ∃ st', _get_gitlab_blame self repo_url file_path line st = (Ok None, st')) ∧
  (github_lookup_fails self repo_url file_path line (world st) →
     ∃ st', _get_github_blame self repo_url file_path line st = (Ok None, st')) ∧
  (selected self repo_url = Some GitLabProvider →
   gitlab_lookup_fails self repo_url file_path line (world st) →
     ∃ st', get_blame_info self repo_url file_path line st = (Ok None, st')) ∧
  (selected self repo_url = Some GitHubProvider →
   github_lookup_fails self repo_url file_path line (world st) →
     ∃ st', get_blame_info self repo_url file_path line st = (Ok None, st')) ∧
  (∀ path sast_results st1,
     run_semgrep path st = (Ok sast_results, st1) →
     ∃ m st2, analyze_repository self repo_url path st = (Ok m, st2)).
Proof.
  intros Hv Hc. repeat split.
  - by apply gitlab_blame_returns.
  - by apply github_blame_returns.
  - by apply get_blame_info_returns.
  - by apply gitlab_failure_unknown.
  - by apply github_failure_unknown.
  - intros Hsel Hfail. rewrite get_blame_info_selected, Hsel.
    by apply gitlab_failure_unknown.
  - intros Hsel Hfail. rewrite get_blame_info_selected, Hsel.
    by apply github_failure_unknown.
  - intros path sast_results st1 Hrun.
    unfold analyze_repository, mbind, M_bind. rewrite Hrun.
    by apply enrich_returns.
Qed.

(** ** Keys of the result mapping *)

Lemma pretty_N_go_colon_free x s :
  colon_free s = true → colon_free (pretty_N_go x s) = true.
Proof.
  revert s. induction (N.lt_wf_0 x) as [x _ IH]; intros s Hs.
  assert (x = 0 ∨ 0 < x)%N as [->|Hx] by lia.
  - by rewrite pretty_N_go_0.
  - rewrite pretty_N_go_step by done.
    apply IH; [by apply N.div_lt|].
    simpl. rewrite Hs, andb_true_r.
    unfold pretty_N_char. by repeat case_match.
Qed.

Lemma pretty_Z_colon_free (n : Z) : colon_free (pretty n) = true.
Proof.
  assert (∀ p : positive, colon_free (pretty p) = true) as Hpos.
  { intros p. unfold pretty, pretty_positive, pretty, pretty_N.
    case_decide; [done|]. by apply pretty_N_go_colon_free. }
  destruct n as [|p|p]; unfold pretty, pretty_Z; simpl; [done|apply Hpos|].
  apply Hpos.
Qed.

Lemma colon_split (f1 f2 d1 d2 : string) :
  colon_free d1 = true → colon_free d2 = true →
  f1 +:+ ":" +:+ d1 = f2 +:+ ":" +:+ d2 → f1 = f2 ∧ d1 = d2.
Proof.
  intros H1 H2. revert f2.
  assert (∀ f d d', colon_free d' = true →
            d' ≠ String.app f (String ":"%char d)) as Hno.
  { intros f d d' Hd' ->. induction f as [|c f IH]; simpl in Hd'.
    - done.
    - apply andb_true_iff in Hd' as [_ Hd']. by apply IH. }
  induction f1 as [|c f1 IH]; intros [|c' f2]; simpl; intros Heq.
  - by injection Heq.
  - injection Heq as <- Heq. by destruct (Hno f2 d2 d1).
  - injection Heq as -> Heq. by destruct (Hno f1 d1 d2).
  - injection Heq as -> Heq. destruct (IH f2 Heq) as [-> ->]. done.
Qed.

(** Two findings have the same key exactly when they are at the same file
    and line. *)
Lemma result_key_location (r1 r2 : SastResult) :
  result_key r1 = result_key r2 ↔ location r1 = location r2.
Proof.
  unfold result_key, location. split.
  - intros Hk. apply colon_split in Hk as [Hf Hl]; try apply pretty_Z_colon_free.
    apply (inj pretty) in Hl. by rewrite Hf, Hl.
  - by intros [= -> ->].
Qed.

Lemma remove_dups_length_fmap {A B C} `{EqDecision B, EqDecision C}
    (f : A → B) (g : A → C) (l : list A) :
  (∀ x y, f x = f y ↔ g x = g y) →
  length (remove_dups (f <$> l)) = length (remove_dups (g <$> l)).
Proof.
  intros Hfg. induction l as [|a l IH]; simpl; [done|].
  assert (f a ∈ f <$> l ↔ g a ∈ g <$> l) as Hin.
  { rewrite !list_elem_of_fmap. split; intros (y & Hy & ?); exists y;
      (split; [by apply Hfg|done]). }
  repeat case_decide; simpl; try tauto; auto.
Qed.

Lemma size_list_to_set_remove_dups (keys : list string) :
  size (list_to_set keys : gset string) = length (remove_dups keys).
Proof.
  rewrite <- (size_list_to_set (C := gset string) (remove_dups keys))
    by apply NoDup_remove_dups.
  f_equal. apply set_eq. intros k.
  by rewrite !elem_of_list_to_set, elem_of_remove_dups.
Qed.

(** ** The loop of [analyze_repository] *)

Lemma enrich_cons self repo_url r rest enriched st b st' :
  get_blame_info self repo_url (file r) (line r) st = (Ok b, st') →
  enrich self repo_url (r :: rest) enriched st =
  enrich self repo_url rest (<[result_key r := {| sast := r; blame := b |}]> enriched) st'.
Proof. intros Hb. simpl. unfold mbind, M_bind. by rewrite Hb. Qed.

Lemma enrich_app self repo_url pre post enriched st :
  enrich self repo_url (pre ++ post) enriched st =
  match enrich self repo_url pre enriched st with
  | (Ok m, st') => enrich self repo_url post m st'
  | (Raise e, st') => (Raise e, st')
  end.
Proof.
  revert enriched st. induction pre as [|r pre IH]; intros enriched st; simpl; [done|].
  unfold mbind, M_bind.
  destruct (get_blame_info self repo_url (file r) (line r) st) as [[b|e] st']; [|done].
  apply IH.
Qed.

Lemma enrich_dom self repo_url sast_results enriched st m st' :
  enrich self repo_url sast_results enriched st = (Ok m, st') →
  dom m = dom enriched ∪ list_to_set (result_key <$> sast_results).
Proof.
  revert enriched st. induction sast_results as [|r rest IH]; intros enriched st; simpl.
  - intros [= <- _]. set_solver.
  - unfold mbind, M_bind.
    destruct (get_blame_info self repo_url (file r) (line r) st) as [[b|e] st1]; [|done].
    intros Hrest. rewrite (IH _ _ Hrest), dom_insert_L. set_solver.
Qed.

Lemma enrich_lookup_other self repo_url sast_results enriched st m st' k :
  enrich self repo_url sast_results enriched st = (Ok m, st') →
  k ∉ result_key <$> sast_results →
  m !! k = enriched !! k.
Proof.
  revert enriched st. induction sast_results as [|r rest IH]; intros enriched st; simpl.
  - by intros [= <- _].
  - unfold mbind, M_bind.
    destruct (get_blame_info self repo_url (file r) (line r) st) as [[b|e] st1]; [|done].
    intros Hrest Hk. apply not_elem_of_cons in Hk as [Hne Hk].
    rewrite (IH _ _ Hrest Hk). by rewrite lookup_insert_ne.
Qed.

Lemma enrich_entries self repo_url sast_results enriched st m st' k e :
  enrich self repo_url sast_results enriched st = (Ok m, st') →
  m !! k = Some e →
  enriched !! k = Some e ∨ (sast e ∈ sast_results ∧ k = result_key (sast e)).
Proof.
  revert enriched st. induction sast_results as [|r rest IH]; intros enriched st; simpl.
  - intros [= <- _]. by left.
  - unfold mbind, M_bind.
    destruct (get_blame_info self repo_url (file r) (line r) st) as [[b|e'] st1]; [|done].
    intros Hrest Hm. destruct (IH _ _ Hrest Hm) as [Hins|[Hin Hk]].
    + destruct (decide (result_key r = k)) as [<-|Hne].
      * rewrite lookup_insert_eq in Hins. injection Hins as <-. right.
        split; [by left|done].
      * rewrite lookup_insert_ne in Hins by done. by left.
    + right. split; [by right|done].
Qed.

(** C2: the result mapping has one entry per file and line.  Once
    [run_semgrep] has returned its findings, [analyze_repository] returns a
    mapping whose keys are exactly the [file:line] keys of the findings; each
    finding finds at its key an entry for its own file and line, whatever its
    blame lookup did; every entry sits at the key of the finding it holds;
    and the number of entries is the number of distinct [(file, line)] pairs
    among the findings. *)
Theorem C2_one_entry_per_location self repo_url path st sast_results st1 :
  validation_sound → clients_sound self →
  run_semgrep path st = (Ok sast_results, st1) →
  ∃ m st2,
    analyze_repository self repo_url path st = (Ok m, st2) ∧
    dom m = list_to_set (result_key <$> sast_results) ∧
    (∀ r, r ∈ sast_results →
       ∃ e, m !! result_key r = Some e ∧ location (sast e) = location r) ∧
    (∀ k e, m !! k = Some e → sast e ∈ sast_results ∧ k = result_key (sast e)) ∧
    size m = length (remove_dups (location <$> sast_results)).
Proof.
  intros Hv Hc Hrun.
  destruct (enrich_returns self repo_url sast_results ∅ st1 Hv Hc) as (m & st2 & Hm).
  exists m, st2.
  assert (dom m = list_to_set (result_key <$> sast_results)) as Hdom.
  { rewrite (enrich_dom _ _ _ _ _ _ _ Hm). set_solver. }
  assert (∀ k e, m !! k = Some e → sast e ∈ sast_results ∧ k = result_key (sast e))
    as Hentries.
  { intros k e Hk. destruct (enrich_entries _ _ _ _ _ _ _ _ _ Hm Hk) as [Hemp|?]; [|done].
    by rewrite lookup_empty in Hemp. }
  repeat split.
  - unfold analyze_repository, mbind, M_bind. by rewrite Hrun.
  - done.
  - intros r Hr.
    assert (result_key r ∈ dom m) as [e He]%elem_of_dom.
    { rewrite Hdom, elem_of_list_to_set. by apply list_elem_of_fmap_2. }
    exists e. split; [done|].
    apply result_key_location. symmetry. by apply (Hentries _ _ He).
  - by apply (Hentries _ _ H).
  - by apply (Hentries _ _ H).
  - rewrite <- size_dom, Hdom, size_list_to_set_remove_dups.
    apply remove_dups_length_fmap, result_key_location.
Qed.

(** C8: the later finding wins its key.  Let the findings be
    [pre ++ r :: post] with no finding of [post] at the file and line of [r],
    and let [b] be what [get_blame_info] returns for [r] in the state the
    loop has reached after [pre].  Then the returned mapping holds, at the
    key of [r], the entry made of [r] and [b]; and a finding of [pre] at the
    same file and line has that same key, so its own entry is gone. *)
Theorem C8_later_finding_overwrites self repo_url path st pre r post st0 m1 st1 b st2 :
  validation_sound → clients_sound self →
  run_semgrep path st = (Ok (pre ++ r :: post), st0) →
  (∀ r', r' ∈ post → location r' ≠ location r) →
  enrich self repo_url pre ∅ st0 = (Ok m1, st1) →
  get_blame_info self repo_url (file r) (line r) st1 = (Ok b, st2) →
  ∃ m st3,
    analyze_repository self repo_url path st = (Ok m, st3) ∧
    m !! result_key r = Some {| sast := r; blame := b |} ∧
    (∀ r0, r0 ∈ pre → location r0 = location r →
       m !! result_key r0 = Some {| sast := r; blame := b |}).
Proof.
  intros Hv Hc Hrun Hlast Hpre Hb.
  set (m2 := <[result_key r := {| sast := r; blame := b |}]> m1).
  destruct (enrich_returns self repo_url post m2 st2 Hv Hc) as (m & st3 & Hpost).
  assert (m !! result_key r = Some {| sast := r; blame := b |}) as Hm.
  { rewrite (enrich_lookup_other _ _ _ _ _ _ _ _ Hpost).
    - unfold m2. by rewrite lookup_insert_eq.
    - intros (r' & Hk & Hr')%list_elem_of_fmap.
      apply (Hlast r' Hr'). symmetry. by apply result_key_location. }
  exists m, st3. repeat split.
  - unfold analyze_repository, mbind, M_bind. rewrite Hrun.
    rewrite enrich_app, Hpre. by rewrite (enrich_cons _ _ _ _ _ _ _ _ Hb).
  - done.
  - intros r0 _ Hloc. apply result_key_location in Hloc. by rewrite Hloc.
Qed.

(** ** Dispatch *)

Lemma selected_None self repo_url :
  (gitlab_client self = None ∨ contains "gitlab" repo_url = false) →
  (github_client self = None ∨ contains "github" repo_url = false) →
  selected self repo_url = None.
Proof.
  unfold selected. intros [->| ->] [->| ->]; simpl;
    by rewrite ?andb_false_r.
Qed.

Lemma enrich_no_provider self repo_url sast_results enriched st :
  selected self repo_url = None →
  ∃ m, enrich self repo_url sast_results enriched st = (Ok m, st) ∧
       ∀ k e, m !! k = Some e → enriched !! k = Some e ∨ blame e = None.
Proof.
  intros Hsel. revert enriched.
  induction sast_results as [|r rest IH]; intros enriched; simpl.
  - exists enriched. split; [done|]. by left.
  - rewrite get_blame_info_selected, Hsel. unfold mbind, M_bind, mret, M_ret.
    destruct (IH (<[result_key r := {| sast := r; blame := None |}]> enriched))
      as (m & Hm & Hblame).
    exists m. split; [done|].
    intros k e Hk. destruct (Hblame k e Hk) as [Hins|?]; [|by right].
    destruct (decide (result_key r = k)) as [<-|Hne].
    + rewrite lookup_insert_eq in Hins. injection Hins as <-. by right.
    + rewrite lookup_insert_ne in Hins by done. by left.
Qed.

Lemma run_semgrep_calls path st r st' :
  run_semgrep path st = (r, st') →
  calls st' = calls st ++ [CallSubprocess ["semgrep"; "--json"; path]].
Proof.
  unfold run_semgrep, try_except, mbind, M_bind, invoke, lift.
  destruct (subprocess_run _ (world st)) as [[p|e] w]; simpl.
  - destruct (parse_findings (stdout p)) as [fs|e]; simpl.
    + by intros [= _ <-].
    + destruct (is_Exception e); by intros [= _ <-].
  - destruct (is_Exception e); by intros [= _ <-].
Qed.

(** C7: with no provider for the locator, no lookup is made.  When the GitLab
    client is absent or the locator lacks [gitlab], and the GitHub client is
    absent or the locator lacks [github], [get_blame_info] returns [None] and
    leaves the state as it found it: no collaborator is called.  Then every
    entry [analyze_repository] returns has no blame, and the only call of the
    whole analysis is the semgrep process.  An analyzer built without
    credentials, or with empty ones, has neither client. *)
Theorem C7_no_provider_no_lookup self repo_url :
  (gitlab_client self = None ∨ contains "gitlab" repo_url = false) →
  (github_client self = None ∨ contains "github" repo_url = false) →
  (∀ file_path line st, get_blame_info self repo_url file_path line st = (Ok None, st)) ∧
  (∀ path st sast_results st1,
     run_semgrep path st = (Ok sast_results, st1) →
     ∃ m, analyze_repository self repo_url path st = (Ok m, st1) ∧
          dom m = list_to_set (result_key <$> sast_results) ∧
          (∀ k e, m !! k = Some e → blame e = None) ∧
          calls st1 = calls st ++ [CallSubprocess ["semgrep"; "--json"; path]]) ∧
  (∀ t1 t2, token_truthy t1 = false → token_truthy t2 = false →
     gitlab_client (__init__ t1 t2) = None ∧ github_client (__init__ t1 t2) = None).
Proof.
  intros Hgl Hgh. pose proof (selected_None self repo_url Hgl Hgh) as Hsel.
  split; [|split].
  - intros file_path line st. by rewrite get_blame_info_selected, Hsel.
  - intros path st sast_results st1 Hrun.
    destruct (enrich_no_provider self repo_url sast_results ∅ st1 Hsel)
      as (m & Hm & Hblame).
    exists m. repeat split.
    + unfold analyze_repository, mbind, M_bind. by rewrite Hrun.
    + rewrite (enrich_dom _ _ _ _ _ _ _ Hm). set_solver.
    + intros k e Hk. destruct (Hblame k e Hk) as [Hemp|?]; [|done].
      by rewrite lookup_empty in Hemp.
    + by apply (run_semgrep_calls _ _ _ _ Hrun).
  - intros t1 t2 Ht1 Ht2. simpl. by rewrite Ht1, Ht2.
Qed.

Lemma gitlab_blame_calls self repo_url file_path line st :
  ∃ new,
    calls (_get_gitlab_blame self repo_url file_path line st).2 = calls st ++ new ∧
    Forall (λ c, is_github_call c = false) new.
Proof.
  unfold _get_gitlab_blame, try_except, mbind, M_bind, lift, invoke, the_client,
    mret, M_ret.
  destruct (gitlab_client self) as [c|]; simpl; [|by exists []; rewrite app_nil_r].
  destruct (projects_get c repo_url (world st)) as [[p|e] w1]; simpl;
    [|exists [CallGitlabProject repo_url]; by destruct (is_Exception e); simpl; auto].
  destruct (repository_blob p file_path w1) as [[b|e] w2]; simpl;
    [|exists [CallGitlabProject repo_url; CallGitlabBlob file_path];
      rewrite <- app_assoc; by destruct (is_Exception e); simpl; auto].
  exists [CallGitlabProject repo_url; CallGitlabBlob file_path; CallGitlabBlame].
  split; [|by auto].
  destruct (gitlab_blame b w2) as [[v|e] w3]; simpl;
    [|rewrite <- !app_assoc; by destruct (is_Exception e)].
  destruct (py_iter v) as [entries|e]; simpl;
    [|rewrite <- !app_assoc; by destruct (is_Exception e)].
  destruct (gitlab_scan entries line) as [r|e]; simpl;
    rewrite <- !app_assoc; [done|by destruct (is_Exception e)].
Qed.

(** C9: GitLab is tried first.  With both clients configured and a locator
    that contains both [gitlab] and [github], [get_blame_info] is the GitLab
    lookup, and the calls it adds to the log include none to GitHub. *)
Theorem C9_gitlab_tested_first self repo_url file_path line st :
  is_Some (gitlab_client self) → is_Some (github_client self) →
  contains "gitlab" repo_url = true → contains "github" repo_url = true →
  selected self repo_url = Some GitLabProvider ∧
  get_blame_info self repo_url file_path line st =
    _get_gitlab_blame self repo_url file_path line st ∧
  ∃ new,
    calls (get_blame_info self repo_url file_path line st).2 = calls st ++ new ∧
    Forall (λ c, is_github_call c = false) new.
Proof.
  intros Hgl _ Hin _.
  assert (selected self repo_url = Some GitLabProvider) as Hsel.
  { unfold selected. by rewrite bool_decide_eq_true_2, Hin. }
  split; [done|]. rewrite get_blame_info_selected, Hsel. split; [done|].
  apply gitlab_blame_calls.
Qed.

(** ** Ranges *)

Lemma gitlab_contains_ints entry ls lo hi line :
  py_getitem entry "lines" = Ok ls →
  py_getitem ls "start" = Ok (PInt lo) →
  py_getitem ls "end" = Ok (PInt hi) →
  gitlab_contains entry line = Ok ((lo <=? line) && (line <=? hi)).
Proof.
  intros Hls Hlo Hhi. unfold gitlab_contains. rewrite Hls; simpl.
  rewrite Hlo; simpl. destruct (lo <=? line); simpl; [|done].
  by rewrite Hhi.
Qed.

Lemma github_contains_ints entry ls lo hi line :
  py_getattr entry "lines" = Ok ls →
  py_first ls = Ok (PInt lo) →
  py_last ls = Ok (PInt hi) →
  github_contains entry line = Ok ((lo <=? line) && (line <=? hi)).
Proof.
  intros Hls Hlo Hhi. unfold github_contains. rewrite Hls; simpl.
  rewrite Hlo; simpl. destruct (lo <=? line); simpl; [|done].
  by rewrite Hhi.
Qed.

Lemma between_true lo hi line :
  Ok ((lo <=? line) && (line <=? hi)) = Ok true ↔ lo ≤ line ≤ hi.
Proof.
  split.
  - intros [= [?%Z.leb_le ?%Z.leb_le]%andb_true_iff]. lia.
  - intros [Hlo Hhi]. apply Z.leb_le in Hlo, Hhi. by rewrite Hlo, Hhi.
Qed.

(** C6: a range contains both of its ends.  For a GitLab entry whose
    [lines.start] and [lines.end] are the integers [lo] and [hi], and for a
    GitHub entry whose [lines] list starts with [lo] and ends with [hi], the
    loop condition holds exactly for the lines with [lo <= line <= hi]; so
    for a range with [lo <= hi] it holds at [lo] and at [hi]. *)
Theorem C6_range_ends_inclusive lo hi line :
  (∀ entry ls,
     py_getitem entry "lines" = Ok ls →
     py_getitem ls "start" = Ok (PInt lo) →
     py_getitem ls "end" = Ok (PInt hi) →
     (gitlab_contains entry line = Ok true ↔ lo ≤ line ≤ hi) ∧
     (lo ≤ hi →
        gitlab_contains entry lo = Ok true ∧ gitlab_contains entry hi = Ok true)) ∧
  (∀ entry ls,
     py_getattr entry "lines" = Ok ls →
     py_first ls = Ok (PInt lo) →
     py_last ls = Ok (PInt hi) →
     (github_contains entry line = Ok true ↔ lo ≤ line ≤ hi) ∧
     (lo ≤ hi →
        github_contains entry lo = Ok true ∧ github_contains entry hi = Ok true)).
Proof.
  split; intros entry ls Hls Hlo Hhi.
  - rewrite !(gitlab_contains_ints entry ls lo hi) by done.
    rewrite !between_true. lia.
  - rewrite !(github_contains_ints entry ls lo hi) by done.
    rewrite !between_true. lia.
Qed.

Lemma gitlab_scan_first pre entry post line :
  Forall (λ e, gitlab_contains e line = Ok false) pre →
  gitlab_contains entry line = Ok true →
  gitlab_scan (pre ++ entry :: post) line = Some <$> gitlab_record entry.
Proof.
  intros Hpre Hentry. induction Hpre as [|e pre He _ IH]; simpl.
  - by rewrite Hentry.
  - by rewrite He.
Qed.

Lemma github_scan_first pre entry post line :
  Forall (λ e, github_contains e line = Ok false) pre →
  github_contains entry line = Ok true →
  github_scan (pre ++ entry :: post) line = Some <$> github_record entry.
Proof.
  intros Hpre Hentry. induction Hpre as [|e pre He _ IH]; simpl.
  - by rewrite Hentry.
  - by rewrite He.
Qed.

Lemma gitlab_record_of_commit entry c who id when :
  validation_exact →
  py_getitem entry "commit" = Ok c →
  py_getitem c "author_name" = Ok (PStr who) →
  py_getitem c "id" = Ok (PStr id) →
  py_getitem c "committed_date" = Ok (PStr when) →
  gitlab_record entry = Ok {| author := who; commit := id; date := when |}.
Proof.
  intros [Hstr _] Hc Hwho Hid Hwhen. unfold gitlab_record.
  rewrite Hc; simpl. rewrite Hwho; simpl. rewrite Hid; simpl. rewrite Hwhen; simpl.
  unfold BlameInfo_new. by rewrite !Hstr.
Qed.

Lemma github_record_of_commit entry c au who sha iso :
  validation_exact →
  py_getattr entry "commit" = Ok c →
  py_getattr c "author" = Ok au →
  py_getattr au "name" = Ok (PStr who) →
  py_getattr c "sha" = Ok (PStr sha) →
  py_getattr c "committed_date" = Ok (PDateTime iso) →
  github_record entry = Ok {| author := who; commit := sha; date := iso |}.
Proof.
  intros [Hstr _] Hc Hau Hwho Hsha Hiso. unfold github_record.
  rewrite Hc; simpl. rewrite Hau; simpl. rewrite Hwho; simpl. rewrite Hsha; simpl.
  rewrite Hiso; simpl. unfold BlameInfo_new. by rewrite !Hstr.
Qed.

(** C10: the first range that contains the line decides.  When the
    condition is false on every entry of [pre] and true on [entry], the scan
    of [pre ++ entry :: post] returns the record built from [entry],
    whatever [post] holds; and a lookup whose client answers with that
    sequence returns that record.  That record is made of the commit of
    [entry] itself: for GitLab its [author_name], [id] and [committed_date],
    for GitHub its [author.name], its [sha] and the ISO text of its
    [committed_date], so that the scan and the lookup return the author,
    commit and date of the earliest range that contains the line. *)
Theorem C10_first_containing_range_wins line pre entry post :
  (Forall (λ e, gitlab_contains e line = Ok false) pre →
   gitlab_contains entry line = Ok true →
   gitlab_scan (pre ++ entry :: post) line = Some <$> gitlab_record entry) ∧
  (Forall (λ e, github_contains e line = Ok false) pre →
   github_contains entry line = Ok true →
   github_scan (pre ++ entry :: post) line = Some <$> github_record entry) ∧
  (∀ self repo_url file_path st c p w1 b w2 w3 info,
     Forall (λ e, gitlab_contains e line = Ok false) pre →
     gitlab_contains entry line = Ok true →
     gitlab_record entry = Ok info →
     gitlab_client self = Some c →
     projects_get c repo_url (world st) = (Ok p, w1) →
     repository_blob p file_path w1 = (Ok b, w2) →
     gitlab_blame b w2 = (Ok (PList (pre ++ entry :: post)), w3) →
     _get_gitlab_blame self repo_url file_path line st =
       (Ok (Some info),
        {| world := w3;
           calls := calls st ++ [CallGitlabProject repo_url; CallGitlabBlob file_path;
                                 CallGitlabBlame] |})) ∧
  (∀ self repo_url file_path st c r w1 b w2 w3 info,
     Forall (λ e, github_contains e line = Ok false) pre →
     github_contains entry line = Ok true →
     github_record entry = Ok info →
     github_client self = Some c →
     get_repo c repo_url (world st) = (Ok r, w1) →
     get_contents r file_path w1 = (Ok b, w2) →
     github_blame b w2 = (Ok (PList (pre ++ entry :: post)), w3) →
     _get_github_blame self repo_url file_path line st =
       (Ok (Some info),
        {| world := w3;
           calls := calls st ++ [CallGithubRepo repo_url; CallGithubContents file_path;
                                 CallGithubBlame] |})) ∧
  (validation_exact →
   ∀ commit who id when,
     Forall (λ e, gitlab_contains e line = Ok false) pre →
     gitlab_contains entry line = Ok true →
     py_getitem entry "commit" = Ok commit →
     py_getitem commit "author_name" = Ok (PStr who) →
     py_getitem commit "id" = Ok (PStr id) →
     py_getitem commit "committed_date" = Ok (PStr when) →
     gitlab_scan (pre ++ entry :: post) line =
       Ok (Some {| author := who; commit := id; date := when |}) ∧
     ∀ self repo_url file_path st c p w1 b w2 w3,
       gitlab_client self = Some c →
       projects_get c repo_url (world st) = (Ok p, w1) →
       repository_blob p file_path w1 = (Ok b, w2) →
       gitlab_blame b w2 = (Ok (PList (pre ++ entry :: post)), w3) →
       _get_gitlab_blame self repo_url file_path line st =
         (Ok (Some {| author := who; commit := id; date := when |}),
          {| world := w3;
             calls := calls st ++ [CallGitlabProject repo_url; CallGitlabBlob file_path;
                                   CallGitlabBlame] |})) ∧
  (validation_exact →
   ∀ commit au who sha iso,
     Forall (λ e, github_contains e line = Ok false) pre →
     github_contains entry line = Ok true →
     py_getattr entry "commit" = Ok commit →
     py_getattr commit "author" = Ok au →
     py_getattr au "name" = Ok (PStr who) →
     py_getattr commit "sha" = Ok (PStr sha) →
     py_getattr commit "committed_date" = Ok (PDateTime iso) →
     github_scan (pre ++ entry :: post) line =
       Ok (Some {| author := who; commit := sha; date := iso |}) ∧
     ∀ self repo_url file_path st c r w1 b w2 w3,
       github_client self = Some c →
       get_repo c repo_url (world st) = (Ok r, w1) →
       get_contents r file_path w1 = (Ok b, w2) →
       github_blame b w2 = (Ok (PList (pre ++ entry :: post)), w3) →
       _get_github_blame self repo_url file_path line st =
         (Ok (Some {| author := who; commit := sha; date := iso |}),
          {| world := w3;
             calls := calls st ++ [CallGithubRepo repo_url; CallGithubContents file_path;
                                   CallGithubBlame] |})).
Proof.
  assert (∀ self repo_url file_path st c p w1 b w2 w3 info,
            Forall (λ e, gitlab_contains e line = Ok false) pre →
            gitlab_contains entry line = Ok true →
            gitlab_record entry = Ok info →
            gitlab_client self = Some c →
            projects_get c repo_url (world st) = (Ok p, w1) →
            repository_blob p file_path w1 = (Ok b, w2) →
            gitlab_blame b w2 = (Ok (PList (pre ++ entry :: post)), w3) →
            _get_gitlab_blame self repo_url file_path line st =
              (Ok (Some info),
               {| world := w3;
                  calls := calls st ++ [CallGitlabProject repo_url;
                                        CallGitlabBlob file_path; CallGitlabBlame] |}))
    as Hgitlab.
  { intros self repo_url file_path st c p w1 b w2 w3 info Hpre Hentry Hinfo Hc H1 H2 H3.
    run_body. rewrite gitlab_scan_first, Hinfo by done. simpl.
    by rewrite <- !app_assoc. }
  assert (∀ self repo_url file_path st c r w1 b w2 w3 info,
            Forall (λ e, github_contains e line = Ok false) pre →
            github_contains entry line = Ok true →
            github_record entry = Ok info →
            github_client self = Some c →
            get_repo c repo_url (world st) = (Ok r, w1) →
            get_contents r file_path w1 = (Ok b, w2) →
            github_blame b w2 = (Ok (PList (pre ++ entry :: post)), w3) →
            _get_github_blame self repo_url file_path line st =
              (Ok (Some info),
               {| world := w3;
                  calls := calls st ++ [CallGithubRepo repo_url;
                                        CallGithubContents file_path; CallGithubBlame] |}))
    as Hgithub.
  { intros self repo_url file_path st c r w1 b w2 w3 info Hpre Hentry Hinfo Hc H1 H2 H3.
    run_body. rewrite github_scan_first, Hinfo by done. simpl.
    by rewrite <- !app_assoc. }
  split; [apply gitlab_scan_first|]. split; [apply github_scan_first|].
  split; [exact Hgitlab|]. split; [exact Hgithub|]. split.
  - intros Hv commit who id when Hpre Hentry Hcommit Hwho Hid Hwhen.
    pose proof (gitlab_record_of_commit _ _ _ _ _ Hv Hcommit Hwho Hid Hwhen) as Hrec.
    split.
    + by rewrite gitlab_scan_first, Hrec.
    + intros self repo_url file_path st c p w1 b w2 w3. by apply Hgitlab.
  - intros Hv commit au who sha iso Hpre Hentry Hcommit Hau Hwho Hsha Hiso.
    pose proof (github_record_of_commit _ _ _ _ _ _ Hv Hcommit Hau Hwho Hsha Hiso)
      as Hrec.
    split.
    + by rewrite github_scan_first, Hrec.
    + intros self repo_url file_path st c r w1 b w2 w3. by apply Hgithub.
Qed.

(** ** The marker test *)

Lemma prefix_app (n h : string) :
  String.prefix n h = true ↔ ∃ b, h = n +:+ b.
Proof.
  revert h. induction n as [|c n IH]; intros h.
  - split; [intros _; by exists h|]. intros _. by destruct h.
  - destruct h as [|c' h]; simpl.
    + split; [done|]. by intros [b [=]].
    + destruct (ascii_dec c c') as [<-|Hne].
      * rewrite IH. split; intros [b Hb]; exists b; [by rewrite Hb|by injection Hb].
      * split; [done|]. intros [b [= ? _]]. done.
Qed.

(** [contains] is the substring test. *)
Lemma contains_spec (n h : string) :
  contains n h = true ↔ ∃ a b, h = a +:+ n +:+ b.
Proof.
  induction h as [|c h IH].
  - change (contains n EmptyString) with (String.prefix n EmptyString || false).
    rewrite orb_true_iff, prefix_app. split.
    + intros [[b Hb]|[=]]. by exists EmptyString, b.
    + intros ([|c a] & b & Hab); [left; by exists b|done].
  - change (contains n (String c h))
      with (String.prefix n (String c h) || contains n h).
    rewrite orb_true_iff, prefix_app, IH. split.
    + intros [[b Hb]|(a & b & Hab)].
      * by exists EmptyString, b.
      * exists (String c a), b. simpl. by rewrite Hab.
    + intros ([|c' a] & b & Hab).
      * left. by exists b.
      * right. injection Hab as _ Hab. by exists a, b.
Qed.

(** C3, as the code has it: the marker test is an exact, case-sensitive
    substring test.  The GitLab lookup is selected exactly when the GitLab
    client is configured and the locator contains the lower-case text
    [gitlab]; otherwise the GitHub lookup is selected exactly when the GitHub
    client is configured and the locator contains the lower-case text
    [github]; and [get_blame_info] runs the selected lookup, or returns
    [None] when none is selected. *)
Theorem C3_marker_match_is_exact self repo_url :
  (selected self repo_url = Some GitLabProvider ↔
     is_Some (gitlab_client self) ∧ ∃ a b, repo_url = a +:+ "gitlab" +:+ b) ∧
  (selected self repo_url = Some GitHubProvider ↔
     ¬ (is_Some (gitlab_client self) ∧ ∃ a b, repo_url = a +:+ "gitlab" +:+ b) ∧
     is_Some (github_client self) ∧ ∃ a b, repo_url = a +:+ "github" +:+ b) ∧
  (∀ file_path line,
     get_blame_info self repo_url file_path line =
     match selected self repo_url with
     | Some GitLabProvider => _get_gitlab_blame self repo_url file_path line
     | Some GitHubProvider => _get_github_blame self repo_url file_path line
     | None => mret None
     end).
Proof.
  split; [|split; [|intros; apply get_blame_info_selected]].
  - unfold selected. rewrite <- contains_spec.
    destruct (bool_decide_reflect (is_Some (gitlab_client self))) as [Hgl|Hgl];
      destruct (contains "gitlab" repo_url); simpl;
      repeat match goal with |- context [if ?b then _ else _] => destruct b end;
      split; try done; intros [? ?]; done.
  - unfold selected. rewrite <- !contains_spec.
    destruct (bool_decide_reflect (is_Some (gitlab_client self))) as [Hgl|Hgl];
      destruct (bool_decide_reflect (is_Some (github_client self))) as [Hgh|Hgh];
      destruct (contains "gitlab" repo_url); destruct (contains "github" repo_url);
      simpl; split; try done; try (intros (? & ? & ?); done);
      try (intros _; repeat split; try done; intros [? ?]; done);
      intros [Hno _]; destruct Hno; done.
Qed.

(** ** The findings *)

Lemma run_semgrep_unfold path st :
  run_semgrep path st =
  ((analysis_failed
      ((subprocess_run ["semgrep"; "--json"; path] (world st)).1 ≫=
         λ p, parse_findings (stdout p))),
   {| world := (subprocess_run ["semgrep"; "--json"; path] (world st)).2;
      calls := calls st ++ [CallSubprocess ["semgrep"; "--json"; path]] |}).
Proof.
  unfold run_semgrep, try_except, mbind, M_bind, invoke, lift, analysis_failed.
  destruct (subprocess_run _ (world st)) as [[p|e] w]; simpl.
  - destruct (parse_findings (stdout p)) as [fs|e]; simpl; [done|].
    by destruct (is_Exception e).
  - by destruct (is_Exception e).
Qed.

Lemma analyze_repository_fatal self repo_url path st e st1 :
  run_semgrep path st = (Raise e, st1) →
  analyze_repository self repo_url path st = (Raise e, st1).
Proof. intros Hrun. unfold analyze_repository, mbind, M_bind. by rewrite Hrun. Qed.


(** C4, as the code has it: the analysis is fatal when semgrep cannot be
    started or prints something that is not JSON; the exit status is not
    looked at.  An [Exception] raised by [subprocess.run], or by
    [json.loads] on what semgrep printed, makes [run_semgrep] raise
    [RuntimeError] with the text [Semgrep analysis failed: ] before the
    cause; whenever the process completes, the outcome of [run_semgrep] is
    computed from its standard output alone; and what [run_semgrep] raises,
    [analyze_repository] raises, so that no mapping is returned. *)
Theorem C4_fatal_without_exit_status path st :
  (∀ e w,
     subprocess_run ["semgrep"; "--json"; path] (world st) = (Raise e, w) →
     is_Exception e = true →
     run_semgrep path st =
       (Raise (RuntimeError ("Semgrep analysis failed: " +:+ str_exn e)),
        {| world := w; calls := calls st ++ [CallSubprocess ["semgrep"; "--json"; path]] |})) ∧
  (∀ p w e,
     subprocess_run ["semgrep"; "--json"; path] (world st) = (Ok p, w) →
     json_loads (stdout p) = Raise e →
     is_Exception e = true →
     run_semgrep path st =
       (Raise (RuntimeError ("Semgrep analysis failed: " +:+ str_exn e)),
        {| world := w; calls := calls st ++ [CallSubprocess ["semgrep"; "--json"; path]] |})) ∧
  (∀ p w,
     subprocess_run ["semgrep"; "--json"; path] (world st) = (Ok p, w) →
     run_semgrep path st =
       (analysis_failed (parse_findings (stdout p)),
        {| world := w; calls := calls st ++ [CallSubprocess ["semgrep"; "--json"; path]] |})) ∧
  (∀ self repo_url e st1,
     run_semgrep path st = (Raise e, st1) →
     analyze_repository self repo_url path st = (Raise e, st1)).
Proof.
  repeat split.
  - intros e w Hrun He. rewrite run_semgrep_unfold, Hrun. simpl. by rewrite He.
  - intros p w e Hrun Hjson He. rewrite run_semgrep_unfold, Hrun. simpl.
    unfold parse_findings. rewrite Hjson. simpl. by rewrite He.
  - intros p w Hrun. by rewrite run_semgrep_unfold, Hrun.
  - intros self repo_url e st1. apply analyze_repository_fatal.
Qed.


(** ** Reading the report *)

Lemma finding_to_result_reads finding r :
  validation_exact → reads_as finding r → finding_to_result finding = Ok r.
Proof.
  intros [Hstr Hint] (Hf & Hl & Hm & Hs & Hr). unfold finding_to_result.
  rewrite Hf; simpl. rewrite Hl; simpl. rewrite Hm; simpl. rewrite Hs; simpl.
  rewrite Hr; simpl. unfold SastResult_new.
  rewrite !Hstr, Hint; simpl. by destruct r.
Qed.

Lemma comprehension_Forall2 {A B} (f : A → result B) xs ys :
  Forall2 (λ x y, f x = Ok y) xs ys → comprehension f xs = Ok ys.
Proof.
  induction 1 as [|x y xs ys Hxy _ IH]; simpl; [done|].
  by rewrite Hxy, IH.
Qed.

Lemma comprehension_first_failure {A B} (f : A → result B) pre x post ys e :
  comprehension f pre = Ok ys → f x = Raise e →
  comprehension f (pre ++ x :: post) = Raise e.
Proof.
  revert ys. induction pre as [|y pre IH]; intros ys; simpl.
  - intros _ Hx. by rewrite Hx.
  - destruct (f y) as [b|e']; simpl; [|done].
    destruct (comprehension f pre) as [bs|e'] eqn:Hpre; simpl; [|done].
    intros _ Hx. by rewrite (IH bs).
Qed.

(** X1: a well-formed report is read element by element.  When semgrep
    prints a JSON object whose [results] is a list of elements that each
    carry the five fields of a finding, and pydantic passes well-typed values
    unchanged, [run_semgrep] returns those findings, as many as there are
    elements and in the order of the list, with [path], [start.line],
    [extra.message], [extra.severity] and [check_id] as [file], [line],
    [message], [severity] and [rule_id]. *)
Theorem X1_report_read_in_order path st p w d items sast_results :
  validation_exact →
  subprocess_run ["semgrep"; "--json"; path] (world st) = (Ok p, w) →
  json_loads (stdout p) = Ok (PDict d) →
  assoc "results" d = Some (PList items) →
  Forall2 reads_as items sast_results →
  run_semgrep path st =
    (Ok sast_results,
     {| world := w; calls := calls st ++ [CallSubprocess ["semgrep"; "--json"; path]] |}).
Proof.
  intros Hv Hrun Hjson Hresults Hitems.
  rewrite run_semgrep_unfold, Hrun. simpl. unfold parse_findings.
  rewrite Hjson. simpl. rewrite Hresults. simpl.
  rewrite (comprehension_Forall2 finding_to_result items sast_results); [done|].
  eapply Forall2_impl; [exact Hitems|]. intros item r. by apply finding_to_result_reads.
Qed.

(** X2: [run_semgrep] makes one call and fails in one way.  Whatever
    semgrep does, the only collaborator call of [run_semgrep] is the process
    [semgrep --json path]; an exception it raises is a [RuntimeError] whose
    text starts with [Semgrep analysis failed: ], unless it is not an
    [Exception] at all; and when it raises, [analyze_repository] raises the
    same exception having contacted no provider. *)
Theorem X2_one_call_one_error path st :
  calls (run_semgrep path st).2 =
    calls st ++ [CallSubprocess ["semgrep"; "--json"; path]] ∧
  (∀ e, (run_semgrep path st).1 = Raise e →
     is_Exception e = false ∨
     ∃ cause, e = RuntimeError ("Semgrep analysis failed: " +:+ cause)) ∧
  (∀ self repo_url e, (run_semgrep path st).1 = Raise e →
     (analyze_repository self repo_url path st).1 = Raise e ∧
     calls (analyze_repository self repo_url path st).2 =
       calls st ++ [CallSubprocess ["semgrep"; "--json"; path]]).
Proof.
  split; [|split].
  - by rewrite run_semgrep_unfold.
  - intros e. rewrite run_semgrep_unfold. simpl. unfold analysis_failed.
    destruct (_ ≫= _) as [fs|e0]; [done|].
    destruct (is_Exception e0) eqn:He0; intros [= <-]; [right; by eexists|by left].
  - intros self repo_url e He.
    destruct (run_semgrep path st) as [r st1] eqn:Hrun. simpl in He. subst r.
    rewrite (analyze_repository_fatal self repo_url _ _ _ _ Hrun). simpl.
    split; [done|]. by apply (run_semgrep_calls _ _ _ _ Hrun).
Qed.

(** X3: the first element that cannot be read names the error.  When the
    elements before [item] are read and the conversion of [item] raises the
    [Exception] [e], [run_semgrep] raises [RuntimeError] with the text of
    [e] after [Semgrep analysis failed: ], whatever follows [item]; for an
    element that is a dict without [path], [e] is the [KeyError] of [path],
    whichever other fields are missing as well. *)
Theorem X3_first_unreadable_element path st p w d pre item post sast_results e :
  subprocess_run ["semgrep"; "--json"; path] (world st) = (Ok p, w) →
  json_loads (stdout p) = Ok (PDict d) →
  assoc "results" d = Some (PList (pre ++ item :: post)) →
  comprehension finding_to_result pre = Ok sast_results →
  finding_to_result item = Raise e →
  is_Exception e = true →
  run_semgrep path st =
    (Raise (RuntimeError ("Semgrep analysis failed: " +:+ str_exn e)),
     {| world := w; calls := calls st ++ [CallSubprocess ["semgrep"; "--json"; path]] |}) ∧
  (∀ fields, item = PDict fields → assoc "path" fields = None → e = KeyError "path").
Proof.
  intros Hrun Hjson Hresults Hpre Hitem He. split.
  - rewrite run_semgrep_unfold, Hrun. simpl. unfold parse_findings.
    rewrite Hjson. simpl. rewrite Hresults. simpl.
    rewrite (comprehension_first_failure _ _ _ _ _ _ Hpre Hitem). simpl.
    by rewrite He.
  - intros fields -> Hpath. unfold finding_to_result in Hitem. simpl in Hitem.
    rewrite Hpath in Hitem. simpl in Hitem. by injection Hitem.
Qed.

(** ** The calls of a lookup *)

Lemma gitlab_blame_trace self repo_url file_path line st c :
  gitlab_client self = Some c →
  ∃ n, (1 ≤ n)%nat ∧
    calls (_get_gitlab_blame self repo_url file_path line st).2 =
      calls st ++ take n (gitlab_calls repo_url file_path) ∧
    ∀ info, (_get_gitlab_blame self repo_url file_path line st).1 = Ok (Some info) →
            (3 ≤ n)%nat.
Proof.
  intros Hc.
  unfold _get_gitlab_blame, try_except, mbind, M_bind, lift, invoke, the_client,
    mret, M_ret, gitlab_calls.
  rewrite Hc; simpl.
  destruct (projects_get c repo_url (world st)) as [[p|e] w1]; simpl;
    [|exists 1%nat; by destruct (is_Exception e)].
  destruct (repository_blob p file_path w1) as [[b|e] w2]; simpl;
    [|exists 2%nat; rewrite <- app_assoc; destruct (is_Exception e); simpl;
      (split; [lia|done])].
  exists 3%nat. split; [lia|]. split; [|intros; lia].
  destruct (gitlab_blame b w2) as [[v|e] w3]; simpl;
    [|rewrite <- !app_assoc; by destruct (is_Exception e)].
  destruct (py_iter v) as [entries|e]; simpl;
    [|rewrite <- !app_assoc; by destruct (is_Exception e)].
  destruct (gitlab_scan entries line) as [r|e]; simpl;
    rewrite <- !app_assoc; [done|by destruct (is_Exception e)].
Qed.

Lemma github_blame_trace self repo_url file_path line st c :
  github_client self = Some c →
  ∃ n, (1 ≤ n)%nat ∧
    calls (_get_github_blame self repo_url file_path line st).2 =
      calls st ++ take n (github_calls repo_url file_path) ∧
    ∀ info, (_get_github_blame self repo_url file_path line st).1 = Ok (Some info) →
            (3 ≤ n)%nat.
Proof.
  intros Hc.
  unfold _get_github_blame, try_except, mbind, M_bind, lift, invoke, the_client,
    mret, M_ret, github_calls.
  rewrite Hc; simpl.
  destruct (get_repo c repo_url (world st)) as [[p|e] w1]; simpl;
    [|exists 1%nat; by destruct (is_Exception e)].
  destruct (get_contents p file_path w1) as [[b|e] w2]; simpl;
    [|exists 2%nat; rewrite <- app_assoc; destruct (is_Exception e); simpl;
      (split; [lia|done])].
  exists 3%nat. split; [lia|]. split; [|intros; lia].
  destruct (github_blame b w2) as [[v|e] w3]; simpl;
    [|rewrite <- !app_assoc; by destruct (is_Exception e)].
  destruct (py_iter v) as [entries|e]; simpl;
    [|rewrite <- !app_assoc; by destruct (is_Exception e)].
  destruct (github_scan entries line) as [r|e]; simpl;
    rewrite <- !app_assoc; [done|by destruct (is_Exception e)].
Qed.

Lemma selected_gitlab_client self repo_url :
  selected self repo_url = Some GitLabProvider → is_Some (gitlab_client self).
Proof.
  unfold selected.
  destruct (bool_decide_reflect (is_Some (gitlab_client self))) as [Hc|_]; [done|].
  simpl. by destruct (_ && _).
Qed.

Lemma selected_github_client self repo_url :
  selected self repo_url = Some GitHubProvider → is_Some (github_client self).
Proof.
  unfold selected.
  destruct (bool_decide (is_Some (gitlab_client self)) && contains "gitlab" repo_url);
    [done|].
  destruct (bool_decide_reflect (is_Some (github_client self))) as [Hc|_]; [done|].
  by simpl.
Qed.

Lemma lookup_trace self repo_url file_path line st :
  ∃ n,
    calls (get_blame_info self repo_url file_path line st).2 =
      calls st ++ take n (lookup_calls self repo_url file_path) ∧
    (selected self repo_url ≠ None → (1 ≤ n)%nat) ∧
    (∀ info, (get_blame_info self repo_url file_path line st).1 = Ok (Some info) →
             (3 ≤ n)%nat).
Proof.
  rewrite get_blame_info_selected. unfold lookup_calls.
  destruct (selected self repo_url) as [[]|] eqn:Hsel.
  - destruct (selected_gitlab_client _ _ Hsel) as [c Hc].
    destruct (gitlab_blame_trace self repo_url file_path line st c Hc)
      as (n & Hn & Hcalls & Hfull).
    exists n. by repeat split.
  - destruct (selected_github_client _ _ Hsel) as [c Hc].
    destruct (github_blame_trace self repo_url file_path line st c Hc)
      as (n & Hn & Hcalls & Hfull).
    exists n. by repeat split.
  - exists 0%nat. simpl. rewrite app_nil_r. by repeat split.
Qed.

(** X4: a lookup calls its provider at most three times, in order.  The
    calls [get_blame_info] adds to the log are the first [n] of: fetch the
    project (or repository), fetch the file, fetch its blame, all at the
    selected provider; [n] is at least one when a provider is selected, and
    three when the lookup returns a record.  Nothing is retried, the other
    provider is not called, semgrep is not run. *)
Theorem X4_lookup_calls_in_order self repo_url file_path line st :
  ∃ n,
    calls (get_blame_info self repo_url file_path line st).2 =
      calls st ++ take n (lookup_calls self repo_url file_path) ∧
    (selected self repo_url ≠ None → (1 ≤ n)%nat) ∧
    (∀ info, (get_blame_info self repo_url file_path line st).1 = Ok (Some info) →
             (3 ≤ n)%nat).
Proof. apply lookup_trace. Qed.

(** X5: a failed GitLab lookup is not retried at GitHub.  When GitLab is
    the selected provider and its lookup fails, [get_blame_info] returns
    [None] and has made no call to GitHub, also when the GitHub client is
    configured and the locator contains [github]. *)
Theorem X5_no_fallback_to_github self repo_url file_path line st :
  validation_sound → clients_sound self →
  selected self repo_url = Some GitLabProvider →
  gitlab_lookup_fails self repo_url file_path line (world st) →
  ∃ st' new,
    get_blame_info self repo_url file_path line st = (Ok None, st') ∧
    calls st' = calls st ++ new ∧
    Forall (λ c, is_github_call c = false) new.
Proof.
  intros Hv Hc Hsel Hfails.
  destruct (gitlab_failure_unknown self repo_url file_path line st Hv Hc Hfails)
    as [st' Hst'].
  destruct (gitlab_blame_calls self repo_url file_path line st) as (new & Hnew & Hgh).
  rewrite Hst' in Hnew. simpl in Hnew.
  exists st', new. rewrite get_blame_info_selected, Hsel. by repeat split.
Qed.

Lemma repository_calls_app (cs : list call) n (triple : list call) a b c :
  triple = [a; b; c] → is_repository_call a = true →
  is_repository_call b = false → is_repository_call c = false → (1 ≤ n)%nat →
  length (List.filter is_repository_call (cs ++ take n triple)) =
    (length (List.filter is_repository_call cs) + 1)%nat.
Proof.
  intros -> Ha Hb Hc Hn. rewrite List.filter_app, length_app. f_equal.
  destruct n as [|[|[|n]]]; simpl; [lia|..]; rewrite ?take_nil; simpl;
    by rewrite ?Ha, ?Hb, ?Hc.
Qed.

Lemma lookup_repository_calls self repo_url file_path line st :
  selected self repo_url ≠ None →
  length (List.filter is_repository_call
            (calls (get_blame_info self repo_url file_path line st).2)) =
    (length (List.filter is_repository_call (calls st)) + 1)%nat.
Proof.
  intros Hsel.
  destruct (lookup_trace self repo_url file_path line st) as (n & -> & Hn & _).
  specialize (Hn Hsel). unfold lookup_calls.
  destruct (selected self repo_url) as [[]|]; [| |done].
  - by eapply repository_calls_app.
  - by eapply repository_calls_app.
Qed.

Lemma enrich_repository_calls self repo_url sast_results enriched st m st' :
  selected self repo_url ≠ None →
  enrich self repo_url sast_results enriched st = (Ok m, st') →
  length (List.filter is_repository_call (calls st')) =
    (length (List.filter is_repository_call (calls st)) + length sast_results)%nat.
Proof.
  intros Hsel. revert enriched st.
  induction sast_results as [|r rest IH]; intros enriched st; simpl.
  - intros [= _ <-]. lia.
  - unfold mbind, M_bind.
    pose proof (lookup_repository_calls self repo_url (file r) (line r) st Hsel) as Hone.
    destruct (get_blame_info self repo_url (file r) (line r) st) as [[b|e] st1];
      [|done].
    intros Hrest. rewrite (IH _ _ Hrest). simpl in Hone. lia.
Qed.

(** X9: one lookup per finding, repeated locations included.  With a
    provider selected, a run of [analyze_repository] that returns has fetched
    the project (or repository) once for every finding of the report, so
    findings at the same file and line are each looked up again: nothing is
    cached. *)
Theorem X9_one_lookup_per_finding self repo_url path st sast_results st1 m st2 :
  selected self repo_url ≠ None →
  run_semgrep path st = (Ok sast_results, st1) →
  analyze_repository self repo_url path st = (Ok m, st2) →
  length (List.filter is_repository_call (calls st2)) =
    (length (List.filter is_repository_call (calls st)) + length sast_results)%nat.
Proof.
  intros Hsel Hrun Hall.
  unfold analyze_repository, mbind, M_bind in Hall. rewrite Hrun in Hall.
  rewrite (enrich_repository_calls _ _ _ _ _ _ _ Hsel Hall).
  rewrite (run_semgrep_calls _ _ _ _ Hrun), List.filter_app, length_app. simpl. lia.
Qed.

(** ** The scan of the ranges *)

Lemma gitlab_scan_stops pre entry post line e :
  Forall (λ en, gitlab_contains en line = Ok false) pre →
  gitlab_contains entry line = Raise e ∨
    (gitlab_contains entry line = Ok true ∧ gitlab_record entry = Raise e) →
  gitlab_scan (pre ++ entry :: post) line = Raise e.
Proof.
  intros Hpre Hentry. induction Hpre as [|en pre Hen _ IH]; simpl.
  - destruct Hentry as [->|[-> Hrec]]; simpl; [done|]. by rewrite Hrec.
  - by rewrite Hen.
Qed.

Lemma github_scan_stops pre entry post line e :
  Forall (λ en, github_contains en line = Ok false) pre →
  github_contains entry line = Raise e ∨
    (github_contains entry line = Ok true ∧ github_record entry = Raise e) →
  github_scan (pre ++ entry :: post) line = Raise e.
Proof.
  intros Hpre Hentry. induction Hpre as [|en pre Hen _ IH]; simpl.
  - destruct Hentry as [->|[-> Hrec]]; simpl; [done|]. by rewrite Hrec.
  - by rewrite Hen.
Qed.

(** X6: an entry that cannot be read ends the scan.  When the ranges before
    [entry] do not contain the line and either the condition cannot be
    evaluated on [entry], or [entry] contains the line and no record can be
    built from its commit, the scan raises, whatever ranges follow; the
    lookup whose client answers with that sequence then returns [None], so a
    later range that contains the line is not used. *)
Theorem X6_unreadable_entry_ends_scan line pre entry post e :
  (Forall (λ en, gitlab_contains en line = Ok false) pre →
   gitlab_contains entry line = Raise e ∨
     (gitlab_contains entry line = Ok true ∧ gitlab_record entry = Raise e) →
   gitlab_scan (pre ++ entry :: post) line = Raise e) ∧
  (Forall (λ en, github_contains en line = Ok false) pre →
   github_contains entry line = Raise e ∨
     (github_contains entry line = Ok true ∧ github_record entry = Raise e) →
   github_scan (pre ++ entry :: post) line = Raise e) ∧
  (∀ self repo_url file_path st c p w1 b w2 w3,
     Forall (λ en, gitlab_contains en line = Ok false) pre →
     gitlab_contains entry line = Raise e ∨
       (gitlab_contains entry line = Ok true ∧ gitlab_record entry = Raise e) →
     is_Exception e = true →
     gitlab_client self = Some c →
     projects_get c repo_url (world st) = (Ok p, w1) →
     repository_blob p file_path w1 = (Ok b, w2) →
     gitlab_blame b w2 = (Ok (PList (pre ++ entry :: post)), w3) →
     _get_gitlab_blame self repo_url file_path line st =
       (Ok None,
        {| world := w3; calls := calls st ++ gitlab_calls repo_url file_path |})) ∧
  (∀ self repo_url file_path st c r w1 b w2 w3,
     Forall (λ en, github_contains en line = Ok false) pre →
     github_contains entry line = Raise e ∨
       (github_contains entry line = Ok true ∧ github_record entry = Raise e) →
     is_Exception e = true →
     github_client self = Some c →
     get_repo c repo_url (world st) = (Ok r, w1) →
     get_contents r file_path w1 = (Ok b, w2) →
     github_blame b w2 = (Ok (PList (pre ++ entry :: post)), w3) →
     _get_github_blame self repo_url file_path line st =
       (Ok None,
        {| world := w3; calls := calls st ++ github_calls repo_url file_path |})).
Proof.
  split; [apply gitlab_scan_stops|]. split; [apply github_scan_stops|]. split.
  - intros self repo_url file_path st c p w1 b w2 w3 Hpre Hentry He Hc H1 H2 H3.
    run_body. rewrite (gitlab_scan_stops _ _ _ _ _ Hpre Hentry), He.
    unfold gitlab_calls. by rewrite <- !app_assoc.
  - intros self repo_url file_path st c r w1 b w2 w3 Hpre Hentry He Hc H1 H2 H3.
    run_body. rewrite (github_scan_stops _ _ _ _ _ Hpre Hentry), He.
    unfold github_calls. by rewrite <- !app_assoc.
Qed.

(** X7: the end of a range is read only from its start on.  For a GitLab
    entry whose [lines.start] is the integer [lo], a line below [lo] is not
    contained, whatever [lines.end] is and also when it is missing; from [lo]
    on, an error in reading [lines.end] is the outcome of the condition.  For
    a GitHub entry whose [lines] starts with [lo], a line below [lo] is not
    contained. *)
Theorem X7_end_read_from_start_on lo line :
  (∀ entry ls,
     py_getitem entry "lines" = Ok ls →
     py_getitem ls "start" = Ok (PInt lo) →
     (line < lo → gitlab_contains entry line = Ok false) ∧
     (lo ≤ line → ∀ e, py_getitem ls "end" = Raise e →
        gitlab_contains entry line = Raise e)) ∧
  (∀ entry ls,
     py_getattr entry "lines" = Ok ls →
     py_first ls = Ok (PInt lo) →
     line < lo → github_contains entry line = Ok false).
Proof.
  split.
  - intros entry ls Hls Hlo. unfold gitlab_contains. rewrite Hls; simpl.
    rewrite Hlo; simpl. split.
    + intros Hlt. by rewrite (proj2 (Z.leb_gt lo line) Hlt).
    + intros Hle e Hend. rewrite (proj2 (Z.leb_le lo line) Hle). by rewrite Hend.
  - intros entry ls Hls Hlo Hlt. unfold github_contains. rewrite Hls; simpl.
    rewrite Hlo; simpl. by rewrite (proj2 (Z.leb_gt lo line) Hlt).
Qed.

Lemma gitlab_scan_Some blame line info :
  gitlab_scan blame line = Ok (Some info) →
  ∃ pre entry post,
    blame = pre ++ entry :: post ∧
    Forall (λ en, gitlab_contains en line = Ok false) pre ∧
    gitlab_contains entry line = Ok true ∧
    gitlab_record entry = Ok info.
Proof.
  induction blame as [|en rest IH]; simpl; [done|].
  destruct (gitlab_contains en line) as [[]|e] eqn:Hen; simpl; [| |done].
  - destruct (gitlab_record en) as [i|e] eqn:Hrec; simpl; [|done].
    intros [= ->]. by exists [], en, rest.
  - intros (pre & entry & post & -> & Hpre & Hentry & Hrec)%IH.
    exists (en :: pre), entry, post. repeat split; try done. by constructor.
Qed.

Lemma gitlab_scan_None blame line :
  gitlab_scan blame line = Ok None →
  Forall (λ en, gitlab_contains en line = Ok false) blame.
Proof.
  induction blame as [|en rest IH]; simpl; [by constructor|].
  destruct (gitlab_contains en line) as [[]|e] eqn:Hen; simpl; [| |done].
  - by destruct (gitlab_record en).
  - intros Hrest. constructor; [done|by apply IH].
Qed.

Lemma github_scan_Some blame line info :
  github_scan blame line = Ok (Some info) →
  ∃ pre entry post,
    blame = pre ++ entry :: post ∧
    Forall (λ en, github_contains en line = Ok false) pre ∧
    github_contains entry line = Ok true ∧
    github_record entry = Ok info.
Proof.
  induction blame as [|en rest IH]; simpl; [done|].
  destruct (github_contains en line) as [[]|e] eqn:Hen; simpl; [| |done].
  - destruct (github_record en) as [i|e] eqn:Hrec; simpl; [|done].
    intros [= ->]. by exists [], en, rest.
  - intros (pre & entry & post & -> & Hpre & Hentry & Hrec)%IH.
    exists (en :: pre), entry, post. repeat split; try done. by constructor.
Qed.

Lemma github_scan_None blame line :
  github_scan blame line = Ok None →
  Forall (λ en, github_contains en line = Ok false) blame.
Proof.
  induction blame as [|en rest IH]; simpl; [by constructor|].
  destruct (github_contains en line) as [[]|e] eqn:Hen; simpl; [| |done].
  - by destruct (github_record en).
  - intros Hrest. constructor; [done|by apply IH].
Qed.

(** X8: a record always comes from a range that contains the line.  The
    scan returns a record exactly when the sequence has a first entry on
    which the condition holds, every entry before it is read and does not
    contain the line, and the record is the one built from that entry; it
    returns [None] exactly when every entry is read and none contains the
    line. *)
Theorem X8_record_comes_from_containing_range blame line :
  (∀ info,
     gitlab_scan blame line = Ok (Some info) ↔
     ∃ pre entry post,
       blame = pre ++ entry :: post ∧
       Forall (λ en, gitlab_contains en line = Ok false) pre ∧
       gitlab_contains entry line = Ok true ∧
       gitlab_record entry = Ok info) ∧
  (gitlab_scan blame line = Ok None ↔
     Forall (λ en, gitlab_contains en line = Ok false) blame) ∧
  (∀ info,
     github_scan blame line = Ok (Some info) ↔
     ∃ pre entry post,
       blame = pre ++ entry :: post ∧
       Forall (λ en, github_contains en line = Ok false) pre ∧
       github_contains entry line = Ok true ∧
       github_record entry = Ok info) ∧
  (github_scan blame line = Ok None ↔
     Forall (λ en, github_contains en line = Ok false) blame).
Proof.
  split; [|split; [|split]].
  - intros info. split; [apply gitlab_scan_Some|].
    intros (pre & entry & post & -> & Hpre & Hentry & Hrec).
    by rewrite gitlab_scan_first, Hrec.
  - split; [apply gitlab_scan_None|apply gitlab_scan_no_range].
  - intros info. split; [apply github_scan_Some|].
    intros (pre & entry & post & -> & Hpre & Hentry & Hrec).
    by rewrite github_scan_first, Hrec.
  - split; [apply github_scan_None|apply github_scan_no_range].
Qed.

(** X12: which fields of the commit make the record.  With pydantic passing
    strings unchanged, a GitLab entry whose commit has the strings
    [author_name], [id] and [committed_date] gives them as [author], [commit]
    and [date]; a GitHub entry whose commit has [author.name], [sha] and a
    datetime [committed_date] gives the name, the sha and the ISO text of the
    datetime; and a GitHub commit whose [committed_date] is a string, which
    has no [isoformat], gives an [AttributeError] instead of a record. *)
Theorem X12_record_fields :
  validation_exact →
  (∀ entry c who id when,
     py_getitem entry "commit" = Ok c →
     py_getitem c "author_name" = Ok (PStr who) →
     py_getitem c "id" = Ok (PStr id) →
     py_getitem c "committed_date" = Ok (PStr when) →
     gitlab_record entry = Ok {| author := who; commit := id; date := when |}) ∧
  (∀ entry c au who sha iso,
     py_getattr entry "commit" = Ok c →
     py_getattr c "author" = Ok au →
     py_getattr au "name" = Ok (PStr who) →
     py_getattr c "sha" = Ok (PStr sha) →
     py_getattr c "committed_date" = Ok (PDateTime iso) →
     github_record entry = Ok {| author := who; commit := sha; date := iso |}) ∧
  (∀ entry c au who sha when,
     py_getattr entry "commit" = Ok c →
     py_getattr c "author" = Ok au →
     py_getattr au "name" = Ok who →
     py_getattr c "sha" = Ok sha →
     py_getattr c "committed_date" = Ok (PStr when) →
     ∃ msg, github_record entry = Raise (AttributeError msg)).
Proof.
  intros [Hstr _]. split; [|split].
  - intros entry c who id when Hc Hwho Hid Hwhen. unfold gitlab_record.
    rewrite Hc; simpl. rewrite Hwho; simpl. rewrite Hid; simpl. rewrite Hwhen; simpl.
    unfold BlameInfo_new. by rewrite !Hstr.
  - intros entry c au who sha iso Hc Hau Hwho Hsha Hiso. unfold github_record.
    rewrite Hc; simpl. rewrite Hau; simpl. rewrite Hwho; simpl. rewrite Hsha; simpl.
    rewrite Hiso; simpl. unfold BlameInfo_new. by rewrite !Hstr.
  - intros entry c au who sha when Hc Hau Hwho Hsha Hwhen. unfold github_record.
    rewrite Hc; simpl. rewrite Hau; simpl. rewrite Hwho; simpl. rewrite Hsha; simpl.
    rewrite Hwhen; simpl. by eexists.
Qed.

(** ** Entries of failed lookups *)

(** X10: the key tells the file and the line.  Two findings have the same
    key exactly when they have the same file and the same line, also when a
    file name itself contains colons or digits, so findings at different
    locations never share an entry. *)
Theorem X10_key_tells_location (r1 r2 : SastResult) :
  result_key r1 = result_key r2 ↔ file r1 = file r2 ∧ line r1 = line r2.
Proof.
  rewrite result_key_location. unfold location. split.
  - by intros [= -> ->].
  - by intros [-> ->].
Qed.

(** X11: a finding whose lookup fails keeps its entry, without blame.  Let
    the findings be [pre ++ r :: post] with no finding of [post] at the file
    and line of [r], and let the lookup of the selected provider for [r]
    fail in the state the loop has reached after [pre].  Then
    [analyze_repository] returns a mapping that holds [r] with no blame at
    the key of [r], and an entry at the key of every other finding. *)
Theorem X11_failed_lookup_keeps_entry self repo_url path st pre r post st0 m1 st1 :
  validation_sound → clients_sound self →
  run_semgrep path st = (Ok (pre ++ r :: post), st0) →
  (∀ r', r' ∈ post → location r' ≠ location r) →
  enrich self repo_url pre ∅ st0 = (Ok m1, st1) →
  (selected self repo_url = Some GitLabProvider ∧
     gitlab_lookup_fails self repo_url (file r) (line r) (world st1)) ∨
  (selected self repo_url = Some GitHubProvider ∧
     github_lookup_fails self repo_url (file r) (line r) (world st1)) →
  ∃ m st3,
    analyze_repository self repo_url path st = (Ok m, st3) ∧
    m !! result_key r = Some {| sast := r; blame := None |} ∧
    (∀ r', r' ∈ pre ++ post → is_Some (m !! result_key r')).
Proof.
  intros Hv Hc Hrun Hlast Hpre Hfails.
  assert (∃ st2, get_blame_info self repo_url (file r) (line r) st1 = (Ok None, st2))
    as [st2 Hb].
  { rewrite get_blame_info_selected.
    destruct Hfails as [[-> Hf]|[-> Hf]];
      [by apply gitlab_failure_unknown|by apply github_failure_unknown]. }
  set (m2 := <[result_key r := {| sast := r; blame := None |}]> m1).
  destruct (enrich_returns self repo_url post m2 st2 Hv Hc) as (m & st3 & Hpost).
  assert (enrich self repo_url (pre ++ r :: post) ∅ st0 = (Ok m, st3)) as Hall.
  { rewrite enrich_app, Hpre. by rewrite (enrich_cons _ _ _ _ _ _ _ _ Hb). }
  exists m, st3. split; [|split].
  - unfold analyze_repository, mbind, M_bind. by rewrite Hrun.
  - rewrite (enrich_lookup_other _ _ _ _ _ _ _ _ Hpost).
    + unfold m2. by rewrite lookup_insert_eq.
    + intros (r' & Hk & Hr')%list_elem_of_fmap.
      apply (Hlast r' Hr'). symmetry. by apply result_key_location.
  - intros r' Hr'. apply elem_of_dom.
    rewrite (enrich_dom _ _ _ _ _ _ _ Hall), dom_empty_L, (left_id_L ∅ (∪)).
    rewrite elem_of_list_to_set. apply list_elem_of_fmap_2.
    rewrite elem_of_app, elem_of_cons. rewrite elem_of_app in Hr'. tauto.
Qed.

(** ** Credentials *)

(** X13: a provider without credential is never called.  For an analyzer
    built by [__init__], a lookup calls GitHub only if the GitHub token is
    neither [None] nor empty, and GitLab only if the GitLab token is neither
    [None] nor empty, whatever the locator says. *)
Theorem X13_provider_without_token_not_called t1 t2 repo_url file_path line st :
  (token_truthy t2 = false →
     ∃ new,
       calls (get_blame_info (__init__ t1 t2) repo_url file_path line st).2 =
         calls st ++ new ∧
       Forall (λ c, is_github_call c = false) new) ∧
  (token_truthy t1 = false →
     ∃ new,
       calls (get_blame_info (__init__ t1 t2) repo_url file_path line st).2 =
         calls st ++ new ∧
       Forall (λ c, is_gitlab_call c = false) new).
Proof.
  split; intros Ht;
    destruct (lookup_trace (__init__ t1 t2) repo_url file_path line st)
      as (n & Hcalls & _);
    eexists; (split; [exact Hcalls|]); apply Forall_take; unfold lookup_calls;
    destruct (selected (__init__ t1 t2) repo_url) as [[]|] eqn:Hsel;
    try (by repeat constructor).
  - apply selected_github_client in Hsel as [c Hc]. simpl in Hc.
    by rewrite Ht in Hc.
  - apply selected_gitlab_client in Hsel as [c Hc]. simpl in Hc.
    by rewrite Ht in Hc.
Qed.

End Properties.

(** * The analyzer at work *)

#[local] Existing Instance Demo.env.

(** ** The concrete world is well behaved *)

Lemma demo_validation_sound : validation_sound .
Proof. intros v e. destruct v; simpl; intros [= <-]; reflexivity. Qed.

Lemma demo_validation_exact : validation_exact.
Proof. by split. Qed.

Lemma demo_gitlab_sound : gitlab_client_sound Demo.gitlab_server.
Proof.
  intros repo_url w. simpl. destruct (contains "g/p" repo_url); simpl; [|done].
  intros file_path w1. simpl.
  destruct (String.eqb file_path "src/a.py"); simpl; [by intros w2|].
  destruct (String.eqb file_path "b.py"); simpl; [by intros w2|done].
Qed.

Lemma demo_github_sound : github_client_sound Demo.github_server.
Proof.
  intros repo_url w. simpl. destruct (contains "g/p" repo_url); simpl; [|done].
  intros file_path w1. simpl.
  destruct (String.eqb file_path "src/a.py"); simpl; [by intros w2|done].
Qed.

Lemma demo_both_sound : clients_sound Demo.both.
Proof.
  split; intros c Hc.
  - change (Some Demo.gitlab_server = Some c) in Hc. injection Hc as <-.
    apply demo_gitlab_sound.
  - change (Some Demo.github_server = Some c) in Hc. injection Hc as <-.
    apply demo_github_sound.
Qed.

(** ** Runs *)

(** C1 at work: a finding in a file the GitLab project does not have.  The
    lookup fails at [repository_blob] and returns [None]. *)
Lemma C1_failed_lookup_is_unknown_witness :
  validation_sound  ∧
  clients_sound Demo.both ∧
  gitlab_lookup_fails Demo.both "https://gitlab.example.com/g/p" "missing.py" 3
    (world Demo.start) ∧
  ∃ st', _get_gitlab_blame  Demo.both
           "https://gitlab.example.com/g/p" "missing.py" 3 Demo.start = (Ok None, st').
Proof.
  assert (gitlab_lookup_fails Demo.both "https://gitlab.example.com/g/p" "missing.py" 3
            (world Demo.start)) as Hfails.
  { eapply gitlab_file_error; reflexivity. }
  split; [exact demo_validation_sound|]. split; [exact demo_both_sound|].
  split; [exact Hfails|].
  exact (proj1 (proj2 (proj2 (proj2
    (C1_failed_lookup_is_unknown Demo.both "https://gitlab.example.com/g/p"
       "missing.py" 3 Demo.start demo_validation_sound demo_both_sound)))) Hfails).
Defined.

(** C2 at work: three findings, two of them at [b.py:5]; the mapping has two
    entries. *)
Lemma C2_one_entry_per_location_witness :
  validation_sound ∧
  clients_sound Demo.both ∧
  run_semgrep "." Demo.start =
    (Ok [Demo.a10; Demo.b5; Demo.b5'],
     {| world := 1%nat; calls := [CallSubprocess ["semgrep"; "--json"; "."]] |}) ∧
  ∃ m st2,
    analyze_repository Demo.both "https://gitlab.example.com/g/p" "." Demo.start
      = (Ok m, st2) ∧
    dom m = list_to_set (result_key <$> [Demo.a10; Demo.b5; Demo.b5']) ∧
    size m = 2%nat.
Proof.
  assert (run_semgrep "." Demo.start =
            (Ok [Demo.a10; Demo.b5; Demo.b5'],
             {| world := 1%nat; calls := [CallSubprocess ["semgrep"; "--json"; "."]] |}))
    as Hrun by (vm_compute; reflexivity).
  split; [exact demo_validation_sound|]. split; [exact demo_both_sound|].
  split; [exact Hrun|].
  destruct (C2_one_entry_per_location Demo.both "https://gitlab.example.com/g/p" "."
              Demo.start _ _ demo_validation_sound demo_both_sound Hrun)
    as (m & st2 & Hm & Hdom & _ & _ & Hsize).
  exists m, st2. split; [exact Hm|]. split; [exact Hdom|]. exact Hsize.
Defined.

(** C8 at work: [b.py] is rewritten between the lookups of the two findings
    at [b.py:5]; the entry holds the second finding and the blame the second
    lookup returned. *)
Lemma C8_later_finding_overwrites_witness :
  ∃ m st3,
    analyze_repository Demo.both "https://gitlab.example.com/g/p" "." Demo.start
      = (Ok m, st3) ∧
    m !! "b.py:5" =
      Some {| sast := Demo.b5';
              blame := Some {| author := "Cy"; commit := "new222";
                               date := "2024-06-01T00:00:00Z" |} |} ∧
    (∀ r0, r0 ∈ [Demo.a10; Demo.b5] → location r0 = location Demo.b5' →
       m !! result_key r0 =
         Some {| sast := Demo.b5';
                 blame := Some {| author := "Cy"; commit := "new222";
                                  date := "2024-06-01T00:00:00Z" |} |}).
Proof.
  apply (C8_later_finding_overwrites Demo.both "https://gitlab.example.com/g/p" "."
           Demo.start [Demo.a10; Demo.b5] Demo.b5' []
           {| world := 1%nat; calls := [CallSubprocess ["semgrep"; "--json"; "."]] |}
           (<["b.py:5" := {| sast := Demo.b5;
                            blame := Some {| author := "Bob"; commit := "old111";
                                             date := "2024-03-01T00:00:00Z" |} |}]>
              (<["src/a.py:10" := {| sast := Demo.a10;
                                    blame := Some {| author := "Ann"; commit := "abc123";
                                                     date := "2024-01-01T00:00:00Z" |} |}]> ∅))
           {| world := 7%nat;
              calls := [CallSubprocess ["semgrep"; "--json"; "."];
                        CallGitlabProject "https://gitlab.example.com/g/p";
                        CallGitlabBlob "src/a.py"; CallGitlabBlame;
                        CallGitlabProject "https://gitlab.example.com/g/p";
                        CallGitlabBlob "b.py"; CallGitlabBlame] |}
           (Some {| author := "Cy"; commit := "new222"; date := "2024-06-01T00:00:00Z" |})
           {| world := 10%nat;
              calls := [CallSubprocess ["semgrep"; "--json"; "."];
                        CallGitlabProject "https://gitlab.example.com/g/p";
                        CallGitlabBlob "src/a.py"; CallGitlabBlame;
                        CallGitlabProject "https://gitlab.example.com/g/p";
                        CallGitlabBlob "b.py"; CallGitlabBlame;
                        CallGitlabProject "https://gitlab.example.com/g/p";
                        CallGitlabBlob "b.py"; CallGitlabBlame] |}
           demo_validation_sound demo_both_sound).
  - vm_compute; reflexivity.
  - intros r' Hr'. by apply elem_of_nil in Hr'.
  - vm_compute; reflexivity.
  - vm_compute; reflexivity.
Defined.

(** C7 at work: an analyzer without credentials. *)
Lemma C7_no_provider_no_lookup_witness :
  gitlab_client Demo.neither = None ∧
  github_client Demo.neither = None ∧
  get_blame_info Demo.neither "https://gitlab.example.com/g/p" "src/a.py" 10 Demo.start
    = (Ok None, Demo.start) ∧
  ∃ m,
    analyze_repository Demo.neither "https://gitlab.example.com/g/p" "." Demo.start
      = (Ok m, {| world := 1%nat; calls := [CallSubprocess ["semgrep"; "--json"; "."]] |}) ∧
    ∀ k e, m !! k = Some e → blame e = None.
Proof.
  destruct (C7_no_provider_no_lookup Demo.neither "https://gitlab.example.com/g/p"
              (or_introl eq_refl) (or_introl eq_refl)) as (Hlookup & Hall & _).
  split; [reflexivity|]. split; [reflexivity|]. split; [apply Hlookup|].
  destruct (Hall "." Demo.start [Demo.a10; Demo.b5; Demo.b5']
              {| world := 1%nat; calls := [CallSubprocess ["semgrep"; "--json"; "."]] |})
    as (m & Hm & _ & Hblame & _); [vm_compute; reflexivity|].
  exists m. split; [exact Hm|exact Hblame].
Defined.

(** C9 at work: a GitLab mirror of a GitHub repository. *)
Lemma C9_gitlab_tested_first_witness :
  contains "gitlab" "https://gitlab.example.com/mirrors/github/g/p" = true ∧
  contains "github" "https://gitlab.example.com/mirrors/github/g/p" = true ∧
  selected Demo.both "https://gitlab.example.com/mirrors/github/g/p"
    = Some GitLabProvider ∧
  get_blame_info Demo.both "https://gitlab.example.com/mirrors/github/g/p" "src/a.py" 10
    Demo.start =
  _get_gitlab_blame Demo.both "https://gitlab.example.com/mirrors/github/g/p" "src/a.py" 10
    Demo.start.
Proof.
  split; [reflexivity|]. split; [reflexivity|].
  destruct (C9_gitlab_tested_first Demo.both
              "https://gitlab.example.com/mirrors/github/g/p" "src/a.py" 10 Demo.start
              (ex_intro _ Demo.gitlab_server eq_refl)
              (ex_intro _ Demo.github_server eq_refl) eq_refl eq_refl)
    as (Hsel & Hsame & _).
  split; [exact Hsel|exact Hsame].
Defined.

(** C6 at work: the range 1..20 of either provider, at its two ends. *)
Lemma C6_range_ends_inclusive_witness :
  (gitlab_contains (Demo.gitlab_entry 1 20 "Ann" "abc123" "2024-01-01T00:00:00Z") 1
     = Ok true ∧
   gitlab_contains (Demo.gitlab_entry 1 20 "Ann" "abc123" "2024-01-01T00:00:00Z") 20
     = Ok true) ∧
  (github_contains (Demo.github_entry 1 20 "Dee" "def456" "2024-02-02T00:00:00") 1
     = Ok true ∧
   github_contains (Demo.github_entry 1 20 "Dee" "def456" "2024-02-02T00:00:00") 20
     = Ok true).
Proof.
  destruct (C6_range_ends_inclusive 1 20 10) as [Hgl Hgh]. split.
  - apply (Hgl (Demo.gitlab_entry 1 20 "Ann" "abc123" "2024-01-01T00:00:00Z")
             (PDict [("start", PInt 1); ("end", PInt 20)]));
      [reflexivity..|lia].
  - apply (Hgh (Demo.github_entry 1 20 "Dee" "def456" "2024-02-02T00:00:00")
             (PList [PInt 1; PInt 20]));
      [reflexivity..|lia].
Defined.

(** C10 at work: at either provider line 5 lies in the second and in the
    third range; the scan returns the author, commit and date of the second,
    and so does the GitHub lookup whose client answers with these ranges. *)
Lemma C10_first_containing_range_wins_witness :
  validation_exact ∧
  gitlab_scan
    ([Demo.gitlab_entry 1 4 "Ann" "abc123" "2024-01-01T00:00:00Z"] ++
     Demo.gitlab_entry 5 9 "Bob" "old111" "2024-03-01T00:00:00Z" ::
     [Demo.gitlab_entry 5 30 "Eve" "fff000" "2023-01-01T00:00:00Z"]) 5
  = Ok (Some {| author := "Bob"; commit := "old111"; date := "2024-03-01T00:00:00Z" |}) ∧
  github_scan
    ([Demo.github_entry 1 4 "Ann" "abc123" "2024-01-01T00:00:00"] ++
     Demo.github_entry 5 9 "Dee" "def456" "2024-02-02T00:00:00" ::
     [Demo.github_entry 5 30 "Eve" "fff000" "2023-01-01T00:00:00"]) 5
  = Ok (Some {| author := "Dee"; commit := "def456"; date := "2024-02-02T00:00:00" |}) ∧
  _get_github_blame Demo.crowded "https://github.com/g/p" "src/a.py" 5 Demo.start
  = (Ok (Some {| author := "Dee"; commit := "def456"; date := "2024-02-02T00:00:00" |}),
     {| world := 3%nat;
        calls := calls Demo.start ++
                 [CallGithubRepo "https://github.com/g/p"; CallGithubContents "src/a.py";
                  CallGithubBlame] |}).
Proof.
  split; [exact demo_validation_exact|]. split.
  - eapply (proj1 (proj2 (proj2 (proj2 (proj2
      (C10_first_containing_range_wins 5
         [Demo.gitlab_entry 1 4 "Ann" "abc123" "2024-01-01T00:00:00Z"]
         (Demo.gitlab_entry 5 9 "Bob" "old111" "2024-03-01T00:00:00Z")
         [Demo.gitlab_entry 5 30 "Eve" "fff000" "2023-01-01T00:00:00Z"])))))
      demo_validation_exact);
      [repeat constructor|reflexivity..].
  - destruct (proj2 (proj2 (proj2 (proj2 (proj2
      (C10_first_containing_range_wins 5
         [Demo.github_entry 1 4 "Ann" "abc123" "2024-01-01T00:00:00"]
         (Demo.github_entry 5 9 "Dee" "def456" "2024-02-02T00:00:00")
         [Demo.github_entry 5 30 "Eve" "fff000" "2023-01-01T00:00:00"])))))
      demo_validation_exact
      (PObj [("author", PObj [("name", PStr "Dee")]); ("sha", PStr "def456");
             ("committed_date", PDateTime "2024-02-02T00:00:00")])
      (PObj [("name", PStr "Dee")]) "Dee" "def456" "2024-02-02T00:00:00")
      as [Hscan Hlookup]; [repeat constructor|reflexivity..|].
    split; [exact Hscan|].
    eapply (Hlookup Demo.crowded "https://github.com/g/p" "src/a.py" Demo.start);
      reflexivity.
Defined.

(** C4 at work: semgrep prints nothing that is JSON. *)
Lemma C4_fatal_without_exit_status_witness :
  run_semgrep "nowhere" Demo.start =
    (Raise (RuntimeError
              "Semgrep analysis failed: Expecting value: line 1 column 1 (char 0)"),
     {| world := 1%nat; calls := [CallSubprocess ["semgrep"; "--json"; "nowhere"]] |}).
Proof.
  apply (proj1 (proj2 (C4_fatal_without_exit_status "nowhere" Demo.start))
           {| returncode := 2; stdout := EmptyString; stderr := "invalid scanning root" |} 1%nat
           (LibraryError "JSONDecodeError" "Expecting value: line 1 column 1 (char 0)"));
    reflexivity.
Defined.


(** ** Where the code departs from the specification *)

(** C3 fails on the code: with the GitLab client configured, the locator
    with [gitlab] is looked up at GitLab and the finding gets its blame, while
    the same locator with [GitLab], which differs in case only, selects no
    provider and the finding gets no blame. *)
Lemma C3_counterexample :
  lower ("https://" +:+ "GitLab" +:+ ".example.com/g/p") =
    lower ("https://" +:+ "gitlab" +:+ ".example.com/g/p") ∧
  selected Demo.both ("https://" +:+ "gitlab" +:+ ".example.com/g/p")
    = Some GitLabProvider ∧
  selected Demo.both ("https://" +:+ "GitLab" +:+ ".example.com/g/p") = None ∧
  (get_blame_info Demo.both ("https://" +:+ "gitlab" +:+ ".example.com/g/p")
     "src/a.py" 10 Demo.start).1 =
    Ok (Some {| author := "Ann"; commit := "abc123"; date := "2024-01-01T00:00:00Z" |}) ∧
  get_blame_info Demo.both ("https://" +:+ "GitLab" +:+ ".example.com/g/p")
    "src/a.py" 10 Demo.start = (Ok None, Demo.start).
Proof. repeat split; vm_compute; reflexivity. Qed.

(** C4 fails on the code: semgrep exits with status 2 after printing a
    report with one finding; [run_semgrep] returns that finding and
    [analyze_repository] a mapping with its entry. *)
Lemma C4_counterexample :
  (∃ p, Demo.semgrep ["semgrep"; "--json"; "vendor"] 0%nat = (Ok p, 1%nat) ∧
        returncode p = 2 ∧ Demo.loads (stdout p) = Ok Demo.partial_report) ∧
  run_semgrep "vendor" Demo.start =
    (Ok [Demo.a10],
     {| world := 1%nat; calls := [CallSubprocess ["semgrep"; "--json"; "vendor"]] |}) ∧
  (analyze_repository Demo.both "https://gitlab.example.com/g/p" "vendor" Demo.start).1 =
    Ok {[ "src/a.py:10" :=
            {| sast := Demo.a10;
               blame := Some {| author := "Ann"; commit := "abc123";
                                date := "2024-01-01T00:00:00Z" |} |} ]}.
Proof.
  split; [eexists; repeat split; vm_compute; reflexivity|].
  split; vm_compute; reflexivity.
Qed.


(** ** More runs *)

Lemma demo_stranded_sound : clients_sound Demo.stranded.
Proof.
  split; intros c Hc.
  - change (Some Demo.gitlab_down = Some c) in Hc. injection Hc as <-.
    by intros repo_url w.
  - change (Some Demo.github_server = Some c) in Hc. injection Hc as <-.
    apply demo_github_sound.
Qed.

(** X1 at work: the report with three findings. *)
Lemma X1_report_read_in_order_witness :
  validation_exact ∧
  run_semgrep "." Demo.start =
    (Ok [Demo.a10; Demo.b5; Demo.b5'],
     {| world := 1%nat; calls := [CallSubprocess ["semgrep"; "--json"; "."]] |}).
Proof.
  split; [exact demo_validation_exact|].
  eapply (X1_report_read_in_order "." Demo.start
            {| returncode := 0; stdout := Demo.dumps Demo.report; stderr := EmptyString |}
            1%nat _ _ [Demo.a10; Demo.b5; Demo.b5'] demo_validation_exact).
  - reflexivity.
  - vm_compute; reflexivity.
  - reflexivity.
  - repeat constructor.
Defined.

(** X2 at work: semgrep prints nothing; the analysis fails after its one
    call. *)
Lemma X2_one_call_one_error_witness :
  (run_semgrep "nowhere" Demo.start).1 =
    Raise (RuntimeError
             "Semgrep analysis failed: Expecting value: line 1 column 1 (char 0)") ∧
  (analyze_repository Demo.both "https://gitlab.example.com/g/p" "nowhere" Demo.start).1 =
    Raise (RuntimeError
             "Semgrep analysis failed: Expecting value: line 1 column 1 (char 0)") ∧
  calls (analyze_repository Demo.both "https://gitlab.example.com/g/p" "nowhere"
           Demo.start).2 =
    calls Demo.start ++ [CallSubprocess ["semgrep"; "--json"; "nowhere"]].
Proof.
  split; [vm_compute; reflexivity|].
  apply (proj2 (proj2 (X2_one_call_one_error "nowhere" Demo.start))).
  vm_compute; reflexivity.
Defined.

(** X3 at work: the second element of the report has neither [path] nor
    [start]; the error names [path]. *)
Lemma X3_first_unreadable_element_witness :
  run_semgrep (env := Demo.gap_env) "src" Demo.start =
    (Raise (RuntimeError "Semgrep analysis failed: 'path'"),
     {| world := 1%nat; calls := [CallSubprocess ["semgrep"; "--json"; "src"]] |}).
Proof.
  eapply (X3_first_unreadable_element (env := Demo.gap_env) "src" Demo.start
            {| returncode := 0; stdout := Demo.dumps Demo.gap_report; stderr := EmptyString |}
            1%nat _
            [Demo.finding "src/a.py" 10 "eval of user input" "ERROR" "py.eval"]
            (PDict [("check_id", PStr "py.md5");
                    ("extra", PDict [("message", PStr "weak hash");
                                     ("severity", PStr "WARNING")])])
            [Demo.finding "b.py" 5 "weak hash in token" "ERROR" "py.md5-token"]
            [Demo.a10] (KeyError "path")).
  - reflexivity.
  - vm_compute; reflexivity.
  - reflexivity.
  - reflexivity.
  - reflexivity.
  - reflexivity.
Defined.

(** X4 at work: the file is missing at GitLab; the lookup stops after two
    calls. *)
Lemma X4_lookup_calls_in_order_witness :
  ∃ n,
    calls (get_blame_info Demo.both "https://gitlab.example.com/g/p" "missing.py" 3
             Demo.start).2 =
      take n [CallGitlabProject "https://gitlab.example.com/g/p";
              CallGitlabBlob "missing.py"; CallGitlabBlame] ∧
    (1 ≤ n)%nat.
Proof.
  destruct (X4_lookup_calls_in_order Demo.both "https://gitlab.example.com/g/p"
              "missing.py" 3 Demo.start) as (n & Hcalls & Hn & _).
  exists n. split; [exact Hcalls|]. by apply Hn.
Defined.

(** X5 at work: GitLab is down; GitHub, which has the file, is not asked. *)
Lemma X5_no_fallback_to_github_witness :
  (_get_github_blame Demo.stranded "https://github.com/gitlab-mirror/g/p" "src/a.py" 10
     Demo.start).1 =
    Ok (Some {| author := "Dee"; commit := "def456"; date := "2024-02-02T00:00:00" |}) ∧
  ∃ st' new,
    get_blame_info Demo.stranded "https://github.com/gitlab-mirror/g/p" "src/a.py" 10
      Demo.start = (Ok None, st') ∧
    calls st' = calls Demo.start ++ new ∧
    Forall (λ c, is_github_call c = false) new.
Proof.
  split; [vm_compute; reflexivity|].
  apply (X5_no_fallback_to_github Demo.stranded "https://github.com/gitlab-mirror/g/p"
           "src/a.py" 10 Demo.start demo_validation_sound demo_stranded_sound).
  - reflexivity.
  - eapply gitlab_project_error; reflexivity.
Defined.

(** X6 at work: the start of the first range is a string; the second range
    contains the line and is not reached. *)
Lemma X6_unreadable_entry_ends_scan_witness :
  gitlab_scan
    ([] ++
     PDict [("lines", PDict [("start", PStr "1"); ("end", PInt 4)])] ::
     [Demo.gitlab_entry 1 9 "Bob" "old111" "2024-03-01T00:00:00Z"]) 3
  = Raise (TypeError "'<=' not supported between instances of 'str' and 'int'").
Proof.
  apply (proj1 (X6_unreadable_entry_ends_scan 3 []
                  (PDict [("lines", PDict [("start", PStr "1"); ("end", PInt 4)])])
                  [Demo.gitlab_entry 1 9 "Bob" "old111" "2024-03-01T00:00:00Z"]
                  (TypeError "'<=' not supported between instances of 'str' and 'int'"))).
  - constructor.
  - left. reflexivity.
Defined.

(** X7 at work: a range that starts at 5 and has no end. *)
Lemma X7_end_read_from_start_on_witness :
  gitlab_contains (PDict [("lines", PDict [("start", PInt 5)])]) 3 = Ok false ∧
  gitlab_contains (PDict [("lines", PDict [("start", PInt 5)])]) 5 = Raise (KeyError "end").
Proof.
  split.
  - apply (proj1 (X7_end_read_from_start_on 5 3)
             (PDict [("lines", PDict [("start", PInt 5)])]) (PDict [("start", PInt 5)]));
      [reflexivity..|lia].
  - apply (proj1 (X7_end_read_from_start_on 5 5)
             (PDict [("lines", PDict [("start", PInt 5)])]) (PDict [("start", PInt 5)]));
      [reflexivity..|lia|reflexivity].
Defined.

(** X9 at work: three findings, two at [b.py:5], three project fetches. *)
Lemma X9_one_lookup_per_finding_witness :
  ∃ m st2,
    analyze_repository Demo.both "https://gitlab.example.com/g/p" "." Demo.start
      = (Ok m, st2) ∧
    size m = 2%nat ∧
    length (List.filter is_repository_call (calls st2)) = 3%nat.
Proof.
  destruct (analyze_repository Demo.both "https://gitlab.example.com/g/p" "." Demo.start)
    as [[m|e] st2] eqn:Hall; [|by vm_compute in Hall].
  exists m, st2. split; [reflexivity|]. split.
  - vm_compute in Hall. injection Hall as <- _. vm_compute; reflexivity.
  - apply (X9_one_lookup_per_finding Demo.both "https://gitlab.example.com/g/p" "."
             Demo.start [Demo.a10; Demo.b5; Demo.b5']
             {| world := 1%nat; calls := [CallSubprocess ["semgrep"; "--json"; "."]] |}
             m st2).
    + discriminate.
    + vm_compute; reflexivity.
    + exact Hall.
Defined.

(** X11 at work: GitHub has no [b.py]; the entry of [b.py:5] holds the later
    finding and no blame, and [src/a.py:10] keeps its entry. *)
Lemma X11_failed_lookup_keeps_entry_witness :
  ∃ m st3,
    analyze_repository Demo.both "https://github.com/g/p" "." Demo.start = (Ok m, st3) ∧
    m !! "b.py:5" = Some {| sast := Demo.b5'; blame := None |} ∧
    (∀ r', r' ∈ [Demo.a10; Demo.b5] ++ [] → is_Some (m !! result_key r')).
Proof.
  apply (X11_failed_lookup_keeps_entry Demo.both "https://github.com/g/p" "."
           Demo.start [Demo.a10; Demo.b5] Demo.b5' []
           {| world := 1%nat; calls := [CallSubprocess ["semgrep"; "--json"; "."]] |}
           (<["b.py:5" := {| sast := Demo.b5; blame := None |}]>
              (<["src/a.py:10" := {| sast := Demo.a10;
                                    blame := Some {| author := "Dee"; commit := "def456";
                                                     date := "2024-02-02T00:00:00" |} |}]> ∅))
           {| world := 6%nat;
              calls := [CallSubprocess ["semgrep"; "--json"; "."];
                        CallGithubRepo "https://github.com/g/p";
                        CallGithubContents "src/a.py"; CallGithubBlame;
                        CallGithubRepo "https://github.com/g/p";
                        CallGithubContents "b.py"] |}
           demo_validation_sound demo_both_sound).
  - vm_compute; reflexivity.
  - intros r' Hr'. by apply elem_of_nil in Hr'.
  - vm_compute; reflexivity.
  - right. split; [reflexivity|]. eapply github_file_error; reflexivity.
Defined.

(** X12 at work: the range of [src/a.py] at either provider. *)
Lemma X12_record_fields_witness :
  validation_exact ∧
  gitlab_record (Demo.gitlab_entry 1 20 "Ann" "abc123" "2024-01-01T00:00:00Z") =
    Ok {| author := "Ann"; commit := "abc123"; date := "2024-01-01T00:00:00Z" |} ∧
  github_record (Demo.github_entry 1 20 "Dee" "def456" "2024-02-02T00:00:00") =
    Ok {| author := "Dee"; commit := "def456"; date := "2024-02-02T00:00:00" |}.
Proof.
  destruct (X12_record_fields demo_validation_exact) as (Hgl & Hgh & _).
  split; [exact demo_validation_exact|]. split.
  - eapply Hgl; reflexivity.
  - eapply Hgh; reflexivity.
Defined.

(** X13 at work: with a GitLab token only, a locator that names both
    providers is looked up at GitLab, and a GitHub locator nowhere. *)
Lemma X13_provider_without_token_not_called_witness :
  (∃ new,
     calls (get_blame_info (__init__ (Some "glpat-1") None)
              "https://gitlab.example.com/mirrors/github/g/p" "src/a.py" 10
              Demo.start).2 = calls Demo.start ++ new ∧
     Forall (λ c, is_github_call c = false) new) ∧
  get_blame_info (__init__ (Some "glpat-1") None) "https://github.com/g/p" "src/a.py" 10
    Demo.start = (Ok None, Demo.start).
Proof.
  split; [|vm_compute; reflexivity].
  apply (proj1 (X13_provider_without_token_not_called (Some "glpat-1") None
                  "https://gitlab.example.com/mirrors/github/g/p" "src/a.py" 10
                  Demo.start)).
  reflexivity.
Defined.
